(** * TrackerExtractInfo: the extraction hand-off object of tracker-miners

    A shallow embedding of [src/libtracker-extract/tracker-extract-info.c].

    The C functions work on a heap of three kinds of allocations: GObject
    instances (the [GFile] and the [TrackerResource]), NUL-terminated
    character buffers and the [TrackerExtractInfo] slices themselves.  Every
    function below is a computation in a small state-and-failure monad over
    that heap: [None] is undefined behaviour (a NULL or dangling
    dereference, a double free), while a failed [g_return_val_if_fail]
    precondition is what GLib makes of it, a logged critical and an early
    return. *)

From Stdlib Require Import ZArith String.
From stdpp Require Import base option gmap strings.

Local Open Scope Z_scope.
Local Open Scope string_scope.

(** ** Memory model *)

(** Addresses; a C pointer is [NULL] or an address. *)
Abbreviation loc := positive.
Abbreviation gpointer := (option loc).
Abbreviation NULL := (@None loc).

(** The run-time types the file tells apart. *)
Inductive GType : Set :=
  | G_TYPE_FILE
  | TRACKER_TYPE_RESOURCE
  | G_TYPE_OBJECT.

#[global] Instance GType_eq_dec : EqDecision GType.
Proof. solve_decision. Defined.

(** A live GObject instance: its class and its own reference count. *)
Record GObject : Set := mkGObject {
  g_type : GType;
  g_ref_count : nat
}.

(** [struct _TrackerExtractInfo], field by field. *)
Record TrackerExtractInfo : Set := mkInfo {
  resource : gpointer;
  file : gpointer;
  content_id : gpointer;
  mimetype : gpointer;
  graph : gpointer;
  max_text : Z;
  ref_count : Z
}.

(** The heap, and the number of criticals GLib has logged so far. *)
Record world : Type := mkWorld {
  objects : gmap loc GObject;
  strings : gmap loc string;
  infos : gmap loc TrackerExtractInfo;
  criticals : nat
}.

(** ** The monad of heap computations *)

Definition M (A : Type) : Type := world -> option (A * world).

Definition ret {A} (a : A) : M A := fun w => Some (a, w).

Definition bind {A B} (m : M A) (k : A -> M B) : M B :=
  fun w => match m w with
           | Some (a, w') => k a w'
           | None => None
           end.

(** Undefined behaviour. *)
Definition undefined {A} : M A := fun _ => None.

Notation "x <- m ;; k" := (bind m (fun x => k))
  (at level 100, m at next level, right associativity).
Notation "m ;;; k" := (bind m (fun _ => k))
  (at level 100, right associativity).

Definition with_objects (f : gmap loc GObject -> gmap loc GObject) (w : world) : world :=
  mkWorld (f (objects w)) (strings w) (infos w) (criticals w).

Definition with_strings (f : gmap loc string -> gmap loc string) (w : world) : world :=
  mkWorld (objects w) (f (strings w)) (infos w) (criticals w).

Definition with_infos
    (f : gmap loc TrackerExtractInfo -> gmap loc TrackerExtractInfo) (w : world) : world :=
  mkWorld (objects w) (strings w) (f (infos w)) (criticals w).

(** ** 32-bit [gint] arithmetic *)

Definition G_MAXINT : Z := 2147483647.
Definition G_MININT : Z := -2147483648.

(** Two's-complement wrap-around into the range of [gint]. *)
Definition wrap_gint (z : Z) : Z := (z + 2147483648) mod 4294967296 - 2147483648.

(** ** The GLib primitives the file calls *)

(** The world after one more logged critical. *)
Definition logged (w : world) : world :=
  mkWorld (objects w) (strings w) (infos w) (S (criticals w)).

(** A failed [g_return_if_fail]: one more critical in the log. *)
Definition g_critical : M unit := fun w => Some (tt, logged w).

(** Instance type check [G_TYPE_CHECK_INSTANCE_TYPE]: false on NULL, reads the
    class of a live instance. *)
Definition g_type_check_instance_is_a (p : gpointer) (t : GType) : M bool :=
  fun w => match p with
           | None => Some (false, w)
           | Some l => match objects w !! l with
                       | Some o => Some (bool_decide (g_type o = t), w)
                       | None => None
                       end
           end.

Definition G_IS_FILE (p : gpointer) : M bool := g_type_check_instance_is_a p G_TYPE_FILE.

(** [g_object_ref]: a critical on NULL, else one more reference. *)
Definition g_object_ref (p : gpointer) : M gpointer :=
  match p with
  | None => g_critical ;;; ret NULL
  | Some l => fun w =>
      match objects w !! l with
      | Some o =>
          Some (p, with_objects (insert l (mkGObject (g_type o) (S (g_ref_count o)))) w)
      | None => None
      end
  end.

(** [g_object_unref]: a critical on NULL, else one reference fewer; the
    instance is finalized when the last one goes. *)
Definition g_object_unref (p : gpointer) : M unit :=
  match p with
  | None => g_critical
  | Some l => fun w =>
      match objects w !! l with
      | Some o =>
          match g_ref_count o with
          | S (S n) => Some (tt, with_objects (insert l (mkGObject (g_type o) (S n))) w)
          | _ => Some (tt, with_objects (delete l) w)
          end
      | None => None
      end
  end.

(** Allocation of a fresh character buffer holding [s]. *)
Definition alloc_string (s : string) : M gpointer :=
  fun w => let l := fresh (dom (strings w)) in
           Some (Some l, with_strings (insert l s) w).

(** Reading the characters behind a [gchar *]. *)
Definition read_string (p : gpointer) : M (option string) :=
  fun w => match p with
           | None => Some (None, w)
           | Some l => match strings w !! l with
                       | Some s => Some (Some s, w)
                       | None => None
                       end
           end.

(** [g_strdup]: NULL for NULL, else a newly allocated copy. *)
Definition g_strdup (s : option string) : M gpointer :=
  match s with
  | None => ret NULL
  | Some s => alloc_string s
  end.

(** The variadic tail of [g_strconcat] stops at the first NULL. *)
Fixpoint concat_until_null (l : list (option string)) : string :=
  match l with
  | Some s :: l' => s ++ concat_until_null l'
  | _ => EmptyString
  end.

(** [g_strconcat (string1, ..., NULL)]: NULL when [string1] is NULL, else a
    newly allocated concatenation. *)
Definition g_strconcat (string1 : option string) (rest : list (option string)) : M gpointer :=
  match string1 with
  | None => ret NULL
  | Some s => alloc_string (s ++ concat_until_null rest)
  end.

(** [g_free]: nothing on NULL, else the buffer is gone. *)
Definition g_free (p : gpointer) : M unit :=
  match p with
  | None => ret tt
  | Some l => fun w =>
      match strings w !! l with
      | Some _ => Some (tt, with_strings (delete l) w)
      | None => None
      end
  end.

(** [g_slice_new0 (TrackerExtractInfo)]: a fresh, zero-filled slice. *)
Definition g_slice_new0 : M loc :=
  fun w => let l := fresh (dom (infos w)) in
           Some (l, with_infos (insert l (mkInfo NULL NULL NULL NULL NULL 0 0)) w).

Definition g_slice_free (l : loc) : M unit :=
  fun w => match infos w !! l with
           | Some _ => Some (tt, with_infos (delete l) w)
           | None => None
           end.

(** [*info]: a load through a pointer that must be live. *)
Definition load (l : loc) : M TrackerExtractInfo :=
  fun w => match infos w !! l with
           | Some i => Some (i, w)
           | None => None
           end.

(** [info->field = ...]: a store through a pointer that must be live. *)
Definition store (l : loc) (f : TrackerExtractInfo -> TrackerExtractInfo) : M unit :=
  fun w => match infos w !! l with
           | Some i => Some (tt, with_infos (insert l (f i)) w)
           | None => None
           end.

Definition set_resource_field (r : gpointer) (i : TrackerExtractInfo) : TrackerExtractInfo :=
  mkInfo r (file i) (content_id i) (mimetype i) (graph i) (max_text i) (ref_count i).
Definition set_file_field (p : gpointer) (i : TrackerExtractInfo) : TrackerExtractInfo :=
  mkInfo (resource i) p (content_id i) (mimetype i) (graph i) (max_text i) (ref_count i).
Definition set_content_id_field (p : gpointer) (i : TrackerExtractInfo) : TrackerExtractInfo :=
  mkInfo (resource i) (file i) p (mimetype i) (graph i) (max_text i) (ref_count i).
Definition set_mimetype_field (p : gpointer) (i : TrackerExtractInfo) : TrackerExtractInfo :=
  mkInfo (resource i) (file i) (content_id i) p (graph i) (max_text i) (ref_count i).
Definition set_graph_field (p : gpointer) (i : TrackerExtractInfo) : TrackerExtractInfo :=
  mkInfo (resource i) (file i) (content_id i) (mimetype i) p (max_text i) (ref_count i).
Definition set_max_text_field (z : Z) (i : TrackerExtractInfo) : TrackerExtractInfo :=
  mkInfo (resource i) (file i) (content_id i) (mimetype i) (graph i) z (ref_count i).
Definition set_ref_count_field (z : Z) (i : TrackerExtractInfo) : TrackerExtractInfo :=
  mkInfo (resource i) (file i) (content_id i) (mimetype i) (graph i) (max_text i) z.

(** [g_atomic_int_inc (&info->ref_count)]. *)
Definition g_atomic_int_inc (l : loc) : M unit :=
  store l (fun i => set_ref_count_field (wrap_gint (ref_count i + 1)) i).

(** [g_atomic_int_dec_and_test (&info->ref_count)]: true when the
    decremented count is zero. *)
Definition g_atomic_int_dec_and_test (l : loc) : M bool :=
  i <- load l ;;
  let n := wrap_gint (ref_count i - 1) in
  store l (set_ref_count_field n) ;;;
  ret (bool_decide (n = 0)).

(** ** The functions of tracker-extract-info.c *)

Definition tracker_extract_info_new
    (file_ : gpointer) (content_id_ mimetype_ graph_ : option string) (max_text_ : Z)
    : M gpointer :=
  is_file <- G_IS_FILE file_ ;;
  if negb is_file then g_critical ;;; ret NULL else
  match content_id_ with
  | None | Some EmptyString => g_critical ;;; ret NULL
  | Some _ =>
      info <- g_slice_new0 ;;
      f <- g_object_ref file_ ;;
      store info (set_file_field f) ;;;
      c <- g_strdup content_id_ ;;
      store info (set_content_id_field c) ;;;
      m <- g_strdup mimetype_ ;;
      store info (set_mimetype_field m) ;;;
      g <- g_strdup graph_ ;;
      store info (set_graph_field g) ;;;
      store info (set_max_text_field max_text_) ;;;
      store info (set_resource_field NULL) ;;;
      store info (set_ref_count_field 1) ;;;
      ret (Some info)
  end.

Definition tracker_extract_info_ref (info : gpointer) : M gpointer :=
  match info with
  | None => g_critical ;;; ret NULL
  | Some l => g_atomic_int_inc l ;;; ret info
  end.

Definition tracker_extract_info_unref (info : gpointer) : M unit :=
  match info with
  | None => g_critical
  | Some l =>
      zero <- g_atomic_int_dec_and_test l ;;
      if zero then
        i <- load l ;;
        g_object_unref (file i) ;;;
        g_free (content_id i) ;;;
        g_free (mimetype i) ;;;
        g_free (graph i) ;;;
        (match resource i with
         | Some _ => g_object_unref (resource i)
         | None => ret tt
         end) ;;;
        g_slice_free l
      else ret tt
  end.

Definition tracker_extract_info_get_file (info : gpointer) : M gpointer :=
  match info with
  | None => g_critical ;;; ret NULL
  | Some l => i <- load l ;; ret (file i)
  end.

Definition tracker_extract_info_get_content_id (info : gpointer) (suffix : option string)
    : M gpointer :=
  match info with
  | None => g_critical ;;; ret NULL
  | Some l =>
      i <- load l ;;
      match suffix with
      | Some _ => c <- read_string (content_id i) ;; g_strconcat c [Some "/"; suffix]
      | None => c <- read_string (content_id i) ;; g_strdup c
      end
  end.

Definition tracker_extract_info_get_mimetype (info : gpointer) : M gpointer :=
  match info with
  | None => g_critical ;;; ret NULL
  | Some l => i <- load l ;; ret (mimetype i)
  end.

Definition tracker_extract_info_get_graph (info : gpointer) : M gpointer :=
  match info with
  | None => g_critical ;;; ret NULL
  | Some l => i <- load l ;; ret (graph i)
  end.

Definition tracker_extract_info_get_resource (info : gpointer) : M gpointer :=
  match info with
  | None => undefined
  | Some l => i <- load l ;; ret (resource i)
  end.

Definition tracker_extract_info_set_resource (info : gpointer) (resource_ : gpointer) : M unit :=
  g_object_ref resource_ ;;;
  match info with
  | None => undefined
  | Some l => store l (set_resource_field resource_)
  end.

Definition tracker_extract_info_get_max_text (info : gpointer) : M Z :=
  match info with
  | None => undefined
  | Some l => i <- load l ;; ret (max_text i)
  end.

(** ** Validly constructed contexts *)

Definition object_at (w : world) (p : gpointer) : option GObject :=
  match p with
  | Some l => objects w !! l
  | None => None
  end.

Definition string_at (w : world) (p : gpointer) : option string :=
  match p with
  | Some l => strings w !! l
  | None => None
  end.

Definition type_at (w : world) (p : gpointer) : option GType :=
  option_map g_type (object_at w p).

(** Number of references currently held on the object behind [p]; zero
    once it has been finalized. *)
Definition refs_at (w : world) (p : gpointer) : nat :=
  match object_at w p with
  | Some o => g_ref_count o
  | None => 0%nat
  end.

(** The state [tracker_extract_info_new] sets up and the other functions
    keep: a live slice with a positive count, a live [GFile], a live
    non-empty content id, optional mimetype and graph buffers of their own,
    and a resource that is NULL or a live [TrackerResource]. *)
Record valid_info (w : world) (l : loc) (i : TrackerExtractInfo) : Prop := mkValid {
  valid_live : infos w !! l = Some i;
  valid_ref_count : 1 <= ref_count i <= G_MAXINT;
  valid_file : type_at w (file i) = Some G_TYPE_FILE;
  valid_content_id : exists s, string_at w (content_id i) = Some s /\ s <> EmptyString;
  valid_mimetype : mimetype i = NULL \/ is_Some (string_at w (mimetype i));
  valid_graph : graph i = NULL \/ is_Some (string_at w (graph i));
  valid_resource :
    resource i = NULL \/ type_at w (resource i) = Some TRACKER_TYPE_RESOURCE;
  valid_buffers :
    content_id i <> mimetype i /\ content_id i <> graph i /\
    (mimetype i = graph i -> mimetype i = NULL)
}.

(** ** Destruction *)

(** The object heap after one reference on [p] is dropped, and the buffer
    heap after [p] is freed. *)
Definition drop_ref (p : gpointer) (O : gmap loc GObject) : gmap loc GObject :=
  match p with
  | Some l =>
      match O !! l with
      | Some o =>
          match g_ref_count o with
          | S (S n) => <[l := mkGObject (g_type o) (S n)]> O
          | _ => delete l O
          end
      | None => O
      end
  | None => O
  end.

Definition drop_string (p : gpointer) (S : gmap loc string) : gmap loc string :=
  match p with
  | Some l => delete l S
  | None => S
  end.

(** The world once the last reference on a context is gone. *)
Definition destroyed (l : loc) (i : TrackerExtractInfo) (w : world) : world :=
  mkWorld (drop_ref (resource i) (drop_ref (file i) (objects w)))
          (drop_string (graph i) (drop_string (mimetype i)
             (drop_string (content_id i) (strings w))))
          (delete l (infos w))
          (criticals w).

(** ** Repeated calls *)

(** [n] calls of [m] in a row. *)
Definition repeat_N {A} (n : N) (m : M A) : M unit :=
  N.iter n (fun k => m ;;; k) (ret tt).

(** The world where the count of the slice at [l] is [z]. *)
Definition with_count (l : loc) (i : TrackerExtractInfo) (z : Z) (w : world) : world :=
  with_infos (insert l (set_ref_count_field z i)) w.

(** ** Sequences of operations *)

(** What a holder can do with a context. *)
Inductive operation : Type :=
  | Acquire
  | Release
  | SetResource (r : gpointer)
  | GetContentId (suffix : option string)
  | GetFile
  | GetMimetype
  | GetGraph
  | GetResource
  | GetMaxText.

Definition run (info : gpointer) (o : operation) : M unit :=
  match o with
  | Acquire => tracker_extract_info_ref info ;;; ret tt
  | Release => tracker_extract_info_unref info
  | SetResource r => tracker_extract_info_set_resource info r
  | GetContentId suffix => tracker_extract_info_get_content_id info suffix ;;; ret tt
  | GetFile => tracker_extract_info_get_file info ;;; ret tt
  | GetMimetype => tracker_extract_info_get_mimetype info ;;; ret tt
  | GetGraph => tracker_extract_info_get_graph info ;;; ret tt
  | GetResource => tracker_extract_info_get_resource info ;;; ret tt
  | GetMaxText => tracker_extract_info_get_max_text info ;;; ret tt
  end.

Fixpoint run_all (info : gpointer) (os : list operation) : M unit :=
  match os with
  | [] => ret tt
  | o :: os' => run info o ;;; run_all info os'
  end.

(** The operations that cannot free the context and hand over only objects
    that are live in the heap [w0]. *)
Definition keeps_alive (w0 : world) (o : operation) : Prop :=
  match o with
  | Release => False
  | SetResource r => is_Some (object_at w0 r)
  | _ => True
  end.

(** The context at [l] exists and its content id is the buffer [c] holding
    [cid]. *)
Definition holds_content_id (l : loc) (c : gpointer) (cid : string) (w : world) : Prop :=
  exists i, infos w !! l = Some i /\ content_id i = c /\ string_at w c = Some cid.

(** ** Concrete worlds *)

(** A heap with one [GFile] and two resources, each referenced once. *)
Definition w0 : world :=
  mkWorld {[ 1%positive := mkGObject G_TYPE_FILE 1;
             2%positive := mkGObject TRACKER_TYPE_RESOURCE 1;
             3%positive := mkGObject TRACKER_TYPE_RESOURCE 1 ]} ∅ ∅ 0.

(** The context [tracker_extract_info_new] builds there. *)
Definition i1 : TrackerExtractInfo :=
  mkInfo NULL (Some 1%positive) (Some 1%positive) (Some 2%positive) NULL 0 1.

Definition w1 : world :=
  mkWorld {[ 1%positive := mkGObject G_TYPE_FILE 2;
             2%positive := mkGObject TRACKER_TYPE_RESOURCE 1;
             3%positive := mkGObject TRACKER_TYPE_RESOURCE 1 ]}
          {[ 1%positive := "abc123"; 2%positive := "audio/mpeg" ]}
          {[ 1%positive := i1 ]} 0.

(** The world after two resources were attached in turn to the context of
    [w1] and the context was released. *)
Definition w_leak : world :=
  mkWorld {[ 1%positive := mkGObject G_TYPE_FILE 1;
             2%positive := mkGObject TRACKER_TYPE_RESOURCE 2;
             3%positive := mkGObject TRACKER_TYPE_RESOURCE 1 ]} ∅ ∅ 0.

(** ** Buffers and operations of a live context *)

(** The buffer heap after [g_strdup] returned [p] for the string [so]. *)
Definition add_string (p : gpointer) (so : option string) (S : gmap loc string)
    : gmap loc string :=
  match p, so with
  | Some l, Some s => <[l := s]> S
  | _, _ => S
  end.

(** What [g_strdup so] may return on the buffers [S]: NULL for NULL, an
    address not in use otherwise. *)
Definition strdup_result (p : gpointer) (so : option string) (S : gmap loc string) : Prop :=
  match p with
  | Some l => S !! l = None /\ is_Some so
  | None => so = None
  end.

(** The operations a holder may run on a valid context without leaving the
    range of the count or handing over a pointer that is not a live
    [TrackerResource]. *)
Definition op_ok (w : world) (i : TrackerExtractInfo) (o : operation) : Prop :=
  match o with
  | Acquire => ref_count i < G_MAXINT
  | SetResource r => type_at w r = Some TRACKER_TYPE_RESOURCE
  | _ => True
  end.

(** A context whose content id is itself a derived one. *)
Definition i2 : TrackerExtractInfo :=
  mkInfo NULL (Some 1%positive) (Some 1%positive) NULL NULL 0 1.

Definition w2 : world :=
  mkWorld {[ 1%positive := mkGObject G_TYPE_FILE 2 ]}
          {[ 1%positive := "abc123/3" ]}
          {[ 1%positive := i2 ]} 0.

(** The context of [w1] with as many references as a [gint] can count. *)
Definition i_max : TrackerExtractInfo :=
  mkInfo NULL (Some 1%positive) (Some 1%positive) (Some 2%positive) NULL 0 G_MAXINT.

Definition w_max : world :=
  mkWorld {[ 1%positive := mkGObject G_TYPE_FILE 2;
             2%positive := mkGObject TRACKER_TYPE_RESOURCE 1;
             3%positive := mkGObject TRACKER_TYPE_RESOURCE 1 ]}
          {[ 1%positive := "abc123"; 2%positive := "audio/mpeg" ]}
          {[ 1%positive := i_max ]} 0.

(** ** Reasoning about the monad and the primitives *)

Lemma bind_Some {A B} (m : M A) (k : A -> M B) w a w' :
  m w = Some (a, w') -> bind m k w = k a w'.
Proof. intros H. unfold bind. by rewrite H. Qed.

Lemma load_live w l i : infos w !! l = Some i -> load l w = Some (i, w).
Proof. intros H. unfold load. by rewrite H. Qed.

Lemma store_live w l i f :
  infos w !! l = Some i -> store l f w = Some (tt, with_infos (insert l (f i)) w).
Proof. intros H. unfold store. by rewrite H. Qed.

Lemma alloc_string_fresh s w :
  exists l, strings w !! l = None /\
            alloc_string s w = Some (Some l, with_strings (insert l s) w).
Proof.
  exists (fresh (dom (strings w))). split; [|done].
  apply not_elem_of_dom, is_fresh.
Qed.

Lemma g_slice_new0_fresh w :
  exists l, infos w !! l = None /\
            g_slice_new0 w =
              Some (l, with_infos (insert l (mkInfo NULL NULL NULL NULL NULL 0 0)) w).
Proof.
  exists (fresh (dom (infos w))). split; [|done].
  apply not_elem_of_dom, is_fresh.
Qed.

Lemma store_inserted O S I k l i f :
  store l f (mkWorld O S (<[l:=i]> I) k) = Some (tt, mkWorld O S (<[l:=f i]> I) k).
Proof.
  unfold store, with_infos. simpl. rewrite lookup_insert_eq.
  by rewrite insert_insert_eq.
Qed.

Lemma g_strdup_world so O S I k :
  exists p S',
    g_strdup so (mkWorld O S I k) = Some (p, mkWorld O S' I k) /\ S ⊆ S' /\
    match p with
    | Some l => S !! l = None /\ exists s, so = Some s /\ S' !! l = Some s
    | None => so = None /\ S' = S
    end.
Proof.
  destruct so as [s|]; simpl.
  - destruct (alloc_string_fresh s (mkWorld O S I k)) as (l & Hl & ->).
    simpl in Hl. exists (Some l), (<[l:=s]> S). repeat split; try done.
    + by apply insert_subseteq.
    + exists s. by rewrite lookup_insert_eq.
  - by exists NULL, S.
Qed.

(** What a successful construction leaves behind, in full. *)
Lemma new_success w f o s mt g mx :
  objects w !! f = Some o -> g_type o = G_TYPE_FILE -> s <> EmptyString ->
  exists l c m gr w',
    tracker_extract_info_new (Some f) (Some s) mt g mx w = Some (Some l, w') /\
    infos w !! l = None /\
    infos w' = <[l := mkInfo NULL (Some f) c m gr mx 1]> (infos w) /\
    objects w' = <[f := mkGObject (g_type o) (S (g_ref_count o))]> (objects w) /\
    criticals w' = criticals w /\
    strings w ⊆ strings w' /\
    string_at w' c = Some s /\ string_at w' m = mt /\ string_at w' gr = g /\
    c <> m /\ c <> gr /\ (m = gr -> m = NULL) /\
    (mt = None -> m = NULL) /\ (g = None -> gr = NULL).
Proof.
  intros Ho Ht Hs. destruct w as [O S I k]. simpl in *.
  unfold tracker_extract_info_new, G_IS_FILE, g_type_check_instance_is_a.
  unfold bind at 1. simpl. rewrite Ho, Ht. simpl.
  destruct s as [|a s]; [done|].
  destruct (g_slice_new0_fresh (mkWorld O S I k)) as (l & Hl & El).
  rewrite (bind_Some _ _ _ _ _ El). simpl in Hl. unfold with_infos. simpl.
  unfold bind at 1. simpl. rewrite Ho. unfold with_objects. simpl.
  unfold bind at 1. rewrite store_inserted. simpl.
  change (alloc_string (String a s)) with (g_strdup (Some (String a s))).
  set (O' := <[f:=_]> O).
  destruct (g_strdup_world (Some (String a s)) O' S (<[l:=set_file_field (Some f)
             (mkInfo NULL NULL NULL NULL NULL 0 0)]> I) k) as (c & S1 & E1 & Sub1 & Hc).
  rewrite (bind_Some _ _ _ _ _ E1). unfold bind at 1. rewrite store_inserted.
  destruct (g_strdup_world mt O' S1 (<[l:=set_content_id_field c (set_file_field (Some f)
             (mkInfo NULL NULL NULL NULL NULL 0 0))]> I) k) as (m & S2 & E2 & Sub2 & Hm).
  rewrite (bind_Some _ _ _ _ _ E2). unfold bind at 1. rewrite store_inserted.
  destruct (g_strdup_world g O' S2 (<[l:=set_mimetype_field m (set_content_id_field c
             (set_file_field (Some f) (mkInfo NULL NULL NULL NULL NULL 0 0)))]> I) k)
    as (gr & S3 & E3 & Sub3 & Hg).
  rewrite (bind_Some _ _ _ _ _ E3). unfold bind at 1. rewrite store_inserted.
  unfold bind at 1. rewrite store_inserted.
  unfold bind at 1. rewrite store_inserted.
  unfold bind at 1. rewrite store_inserted.
  simpl. exists l, c, m, gr. eexists. split; [reflexivity|]. simpl.
  destruct c as [lc|]; [|by destruct Hc].
  destruct Hc as (Hc0 & s' & [= <-] & Hc1).
  assert (Hc2 : S2 !! lc = Some (String a s)) by (by eapply lookup_weaken).
  assert (Hc3 : S3 !! lc = Some (String a s)) by (by eapply lookup_weaken).
  repeat split; try done.
  - unfold O'. by rewrite Ht.
  - by do 2 (etrans; [eassumption|]).
  - destruct m as [lm|]; simpl; [|by destruct Hm as [-> _]].
    destruct Hm as (_ & s' & -> & Hm). by eapply lookup_weaken.
  - destruct gr as [lg|]; simpl; [|by destruct Hg as [-> _]].
    by destruct Hg as (_ & s' & -> & Hg).
  - destruct m as [lm|]; [|done]. destruct Hm as (Hm & _). congruence.
  - destruct gr as [lg|]; [|done]. destruct Hg as (Hg & _). congruence.
  - intros <-. destruct m as [lm|]; [|done].
    destruct Hm as (_ & s' & _ & Hm), Hg as (Hg & _). congruence.
  - intros ->. destruct m as [lm|]; [|done]. by destruct Hm as (_ & s' & ? & _).
  - intros ->. destruct gr as [lg|]; [|done]. by destruct Hg as (_ & s' & ? & _).
Qed.

Lemma new_valid w f o s mt g mx :
  objects w !! f = Some o -> g_type o = G_TYPE_FILE -> s <> EmptyString ->
  exists l i w',
    tracker_extract_info_new (Some f) (Some s) mt g mx w = Some (Some l, w') /\
    infos w !! l = None /\ valid_info w' l i /\
    string_at w' (content_id i) = Some s /\ criticals w' = criticals w /\
    ref_count i = 1 /\ resource i = NULL.
Proof.
  intros Ho Ht Hs.
  destruct (new_success w f o s mt g mx Ho Ht Hs)
    as (l & c & m & gr & w' & E & Hl & Hi & HO & Hk & Hsub & Hc & Hm & Hg
        & D1 & D2 & D3 & Nm & Ng).
  exists l, (mkInfo NULL (Some f) c m gr mx 1), w'.
  repeat split; simpl; try done.
  - rewrite Hi. apply lookup_insert_eq.
  - unfold type_at. simpl. rewrite HO, lookup_insert_eq. simpl. by rewrite Ht.
  - by exists s.
  - rewrite Hm. destruct mt; [by right|left; by apply Nm].
  - rewrite Hg. destruct g; [by right|left; by apply Ng].
  - by left.
Qed.

(** The specification lemmas of the remaining functions, on a live slice. *)

Lemma append_empty_r (s : string) : s ++ EmptyString = s.
Proof.
  induction s as [|a s IH]; [reflexivity|].
  change (String a (s ++ EmptyString) = String a s). by rewrite IH.
Qed.

Lemma ref_live w l i :
  infos w !! l = Some i ->
  tracker_extract_info_ref (Some l) w =
    Some (Some l, with_infos (insert l (set_ref_count_field (wrap_gint (ref_count i + 1)) i)) w).
Proof.
  intros H. unfold tracker_extract_info_ref, g_atomic_int_inc.
  unfold bind. by rewrite (store_live _ _ _ _ H).
Qed.

Lemma dec_and_test_live w l i :
  infos w !! l = Some i ->
  g_atomic_int_dec_and_test l w =
    Some (bool_decide (wrap_gint (ref_count i - 1) = 0),
          with_infos (insert l (set_ref_count_field (wrap_gint (ref_count i - 1)) i)) w).
Proof.
  intros H. unfold g_atomic_int_dec_and_test.
  rewrite (bind_Some _ _ _ _ _ (load_live _ _ _ H)).
  unfold bind. by rewrite (store_live _ _ _ _ H).
Qed.

Lemma unref_keeps w l i :
  infos w !! l = Some i -> wrap_gint (ref_count i - 1) <> 0 ->
  tracker_extract_info_unref (Some l) w =
    Some (tt, with_infos (insert l (set_ref_count_field (wrap_gint (ref_count i - 1)) i)) w).
Proof.
  intros H Hz. unfold tracker_extract_info_unref.
  rewrite (bind_Some _ _ _ _ _ (dec_and_test_live _ _ _ H)).
  by rewrite bool_decide_eq_false_2.
Qed.

(** A getter is a load followed by a projection. *)
Ltac solve_getter H :=
  let f := lazymatch goal with |- ?f _ _ = _ => f end in
  unfold f; by rewrite (bind_Some _ _ _ _ _ (load_live _ _ _ H)).

Lemma get_file_live w l i :
  infos w !! l = Some i -> tracker_extract_info_get_file (Some l) w = Some (file i, w).
Proof. intros H. solve_getter H. Qed.

Lemma get_mimetype_live w l i :
  infos w !! l = Some i ->
  tracker_extract_info_get_mimetype (Some l) w = Some (mimetype i, w).
Proof. intros H. solve_getter H. Qed.

Lemma get_graph_live w l i :
  infos w !! l = Some i -> tracker_extract_info_get_graph (Some l) w = Some (graph i, w).
Proof. intros H. solve_getter H. Qed.

Lemma get_resource_live w l i :
  infos w !! l = Some i ->
  tracker_extract_info_get_resource (Some l) w = Some (resource i, w).
Proof. intros H. solve_getter H. Qed.

Lemma get_max_text_live w l i :
  infos w !! l = Some i ->
  tracker_extract_info_get_max_text (Some l) w = Some (max_text i, w).
Proof. intros H. solve_getter H. Qed.

Lemma set_resource_live w l i r o :
  infos w !! l = Some i -> objects w !! r = Some o ->
  tracker_extract_info_set_resource (Some l) (Some r) w =
    Some (tt, mkWorld (<[r := mkGObject (g_type o) (S (g_ref_count o))]> (objects w))
                      (strings w)
                      (<[l := set_resource_field (Some r) i]> (infos w))
                      (criticals w)).
Proof.
  intros H Ho. unfold tracker_extract_info_set_resource, g_object_ref.
  unfold bind, store. rewrite Ho. simpl. by rewrite H.
Qed.

Lemma get_content_id_live w l i c suffix :
  infos w !! l = Some i -> string_at w (content_id i) = Some c ->
  exists p,
    strings w !! p = None /\
    tracker_extract_info_get_content_id (Some l) suffix w =
      Some (Some p,
            with_strings
              (insert p (match suffix with
                         | Some s => c ++ "/" ++ s
                         | None => c
                         end)) w).
Proof.
  intros H Hc. unfold tracker_extract_info_get_content_id.
  rewrite (bind_Some _ _ _ _ _ (load_live _ _ _ H)).
  assert (Hr : read_string (content_id i) w = Some (Some c, w)).
  { unfold read_string. destruct (content_id i) as [lc|]; [|done].
    simpl in Hc. by rewrite Hc. }
  destruct suffix as [s|]; rewrite (bind_Some _ _ _ _ _ Hr); simpl.
  - destruct (alloc_string_fresh (c ++ "/" ++ s ++ EmptyString) w) as (p & Hp & E).
    exists p. split; [done|]. rewrite E. repeat f_equal.
    apply append_empty_r.
  - destruct (alloc_string_fresh c w) as (p & Hp & E). by exists p.
Qed.

Lemma g_object_unref_live O S I k l o :
  O !! l = Some o ->
  g_object_unref (Some l) (mkWorld O S I k) = Some (tt, mkWorld (drop_ref (Some l) O) S I k).
Proof.
  intros H. unfold g_object_unref, drop_ref, with_objects. simpl. rewrite H.
  by destruct (g_ref_count o) as [|[|n]].
Qed.

Lemma g_free_ok O S I k p :
  p = NULL \/ is_Some (string_at (mkWorld O S I k) p) ->
  g_free p (mkWorld O S I k) = Some (tt, mkWorld O (drop_string p S) I k).
Proof.
  intros [->|[s Hs]]; [done|]. destruct p as [l|]; [|done].
  simpl in *. by rewrite Hs.
Qed.

Lemma drop_ref_lookup_ne l q O : l <> q -> drop_ref (Some l) O !! q = O !! q.
Proof.
  intros Hne. unfold drop_ref. destruct (O !! l) as [o|]; [|done].
  destruct (g_ref_count o) as [|[|n]];
    by rewrite ?lookup_insert_ne, ?lookup_delete_ne.
Qed.

Lemma unref_destroys w l i :
  valid_info w l i -> ref_count i = 1 ->
  tracker_extract_info_unref (Some l) w = Some (tt, destroyed l i w).
Proof.
  intros [Hl _ Hf (c & Hc & _) Hm Hg Hr (D1 & D2 & D3)] H1.
  unfold tracker_extract_info_unref.
  rewrite (bind_Some _ _ _ _ _ (dec_and_test_live _ _ _ Hl)).
  rewrite H1. change (wrap_gint (1 - 1)) with 0. simpl.
  destruct w as [O S I k], i as [r f ci m g mx rc]. simpl in *.
  unfold with_infos, set_ref_count_field. simpl.
  unfold bind at 1. unfold load. simpl. rewrite lookup_insert_eq. simpl.
  unfold type_at in Hf. simpl in Hf.
  destruct f as [lf|]; [|done]. simpl in Hf.
  destruct (O !! lf) as [o|] eqn:Ho; [|done].
  unfold bind at 1. rewrite (g_object_unref_live _ _ _ _ _ _ Ho).
  unfold bind at 1. rewrite g_free_ok by (right; by exists c).
  assert (Hm' : m = NULL \/
            is_Some (string_at (mkWorld (drop_ref (Some lf) O) (drop_string ci S)
                                  (<[l:=mkInfo r (Some lf) ci m g mx 0]> I) k) m)).
  { destruct Hm as [->|Hm]; [by left|right].
    destruct m as [lm|], ci as [lc|]; simpl in *; try done.
    rewrite lookup_delete_ne; [done|congruence]. }
  unfold bind at 1. rewrite g_free_ok by exact Hm'.
  assert (Hg' : g = NULL \/
            is_Some (string_at (mkWorld (drop_ref (Some lf) O)
                                  (drop_string m (drop_string ci S))
                                  (<[l:=mkInfo r (Some lf) ci m g mx 0]> I) k) g)).
  { destruct Hg as [->|Hg]; [by left|right].
    destruct g as [lg|]; [|by destruct Hg]. simpl in *.
    destruct m as [lm|]; simpl.
    - rewrite lookup_delete_ne by (intros ->; by specialize (D3 eq_refl)).
      destruct ci as [lc|]; simpl; [|done].
      rewrite lookup_delete_ne; [done|congruence].
    - destruct ci as [lc|]; simpl; [|done].
      rewrite lookup_delete_ne; [done|congruence]. }
  unfold bind at 1. rewrite g_free_ok by exact Hg'.
  unfold destroyed.
  cbn [resource file content_id mimetype graph objects strings infos criticals].
  destruct r as [lr|].
  - destruct Hr as [|Hr]; [done|]. unfold type_at in Hr. simpl in Hr.
    destruct (O !! lr) as [o'|] eqn:Ho'; [|done].
    assert (lf <> lr).
    { intros ->. simpl in *. congruence. }
    assert (Hlr : drop_ref (Some lf) O !! lr = Some o')
      by (by rewrite drop_ref_lookup_ne).
    unfold bind at 1. rewrite (g_object_unref_live _ _ _ _ _ _ Hlr).
    unfold g_slice_free. simpl. rewrite lookup_insert_eq.
    unfold with_infos. simpl. by rewrite delete_insert_eq.
  - unfold bind at 1. simpl.
    unfold g_slice_free. simpl. rewrite lookup_insert_eq.
    unfold with_infos. simpl. by rewrite delete_insert_eq.
Qed.

(** ** Counting references *)

Lemma repeat_N_succ {A} (n : N) (m : M A) :
  repeat_N (N.succ n) m = (m ;;; repeat_N n m).
Proof. unfold repeat_N. by rewrite N.iter_succ. Qed.

Lemma wrap_gint_range z : G_MININT <= wrap_gint z <= G_MAXINT.
Proof.
  unfold wrap_gint, G_MININT, G_MAXINT.
  pose proof (Z.mod_pos_bound (z + 2147483648) 4294967296). lia.
Qed.

Lemma wrap_gint_small z : G_MININT <= z <= G_MAXINT -> wrap_gint z = z.
Proof.
  unfold wrap_gint, G_MININT, G_MAXINT. intros H.
  rewrite Z.mod_small; lia.
Qed.

Lemma wrap_gint_add z k : wrap_gint (wrap_gint z + k) = wrap_gint (z + k).
Proof.
  unfold wrap_gint. f_equal.
  replace ((z + 2147483648) mod 4294967296 - 2147483648 + k + 2147483648)
    with ((z + 2147483648) mod 4294967296 + k) by lia.
  rewrite Zplus_mod_idemp_l. f_equal. lia.
Qed.

Lemma with_count_id w l i : infos w !! l = Some i -> with_count l i (ref_count i) w = w.
Proof.
  intros H. destruct w as [O S I k], i as [r f c m g mx rc].
  unfold with_count, with_infos, set_ref_count_field. simpl in *.
  by rewrite insert_id.
Qed.

Lemma with_count_twice w l i z z' :
  with_count l (set_ref_count_field z' i) z (with_count l i z' w) = with_count l i z w.
Proof.
  destruct w as [O S I k]. unfold with_count, with_infos. simpl.
  by rewrite insert_insert_eq.
Qed.

Lemma with_count_lookup w l i z :
  infos (with_count l i z w) !! l = Some (set_ref_count_field z i).
Proof. unfold with_count, with_infos. simpl. apply lookup_insert_eq. Qed.

(** [n] acquires add [n] to the count, modulo the width of [gint]. *)
Lemma acquire_n (n : N) : forall w l i,
  infos w !! l = Some i -> G_MININT <= ref_count i <= G_MAXINT ->
  repeat_N n (tracker_extract_info_ref (Some l)) w =
    Some (tt, with_count l i (wrap_gint (ref_count i + Z.of_N n)) w).
Proof.
  induction n as [|n IH] using N.peano_ind; intros w l i Hl Hc.
  - rewrite Z.add_0_r, wrap_gint_small by done. by rewrite with_count_id.
  - rewrite repeat_N_succ, (bind_Some _ _ _ _ _ (ref_live _ _ _ Hl)).
    fold (with_count l i (wrap_gint (ref_count i + 1)) w).
    rewrite (IH _ l _ (with_count_lookup _ _ _ _)) by apply wrap_gint_range.
    simpl. rewrite with_count_twice, wrap_gint_add. do 4 f_equal. lia.
Qed.

Lemma wrap_gint_nonzero z : 0 < z < 4294967296 -> wrap_gint z <> 0.
Proof.
  unfold wrap_gint. intros Hz H.
  pose proof (Z.div_mod (z + 2147483648) 4294967296 ltac:(lia)) as Hd.
  pose proof (Z.mod_pos_bound (z + 2147483648) 4294967296 ltac:(lia)) as Hb.
  lia.
Qed.

(** The last of [n + 1] calls, taken apart. *)
Lemma repeat_N_succ_r {A} (n : N) (m : M A) : forall w,
  repeat_N (N.succ n) m w = (repeat_N n m ;;; m ;;; ret tt) w.
Proof.
  induction n as [|n IH] using N.peano_ind; intros w.
  - by rewrite repeat_N_succ.
  - rewrite (repeat_N_succ (N.succ n)), (repeat_N_succ n).
    unfold bind at 1 3 4. destruct (m w) as [[a wm]|]; [|done].
    by rewrite <- repeat_N_succ, IH.
Qed.

(** Fewer releases than there are references leave the context alive; the
    count [u] of references is read modulo 2^32. *)
Lemma release_k (k : N) : forall w l i u,
  infos w !! l = Some i -> ref_count i = wrap_gint u ->
  Z.of_N k < u <= 4294967296 ->
  repeat_N k (tracker_extract_info_unref (Some l)) w =
    Some (tt, with_count l i (wrap_gint (u - Z.of_N k)) w).
Proof.
  induction k as [|k IH] using N.peano_ind; intros w l i u Hl Hc Hk.
  - rewrite Z.sub_0_r, <- Hc. by rewrite with_count_id.
  - assert (Hw : wrap_gint (ref_count i - 1) = wrap_gint (u - 1)).
    { rewrite Hc. unfold Z.sub. apply wrap_gint_add. }
    assert (Hnz : wrap_gint (ref_count i - 1) <> 0).
    { rewrite Hw. apply wrap_gint_nonzero. lia. }
    rewrite repeat_N_succ, (bind_Some _ _ _ _ _ (unref_keeps _ _ _ Hl Hnz)).
    fold (with_count l i (wrap_gint (ref_count i - 1)) w). rewrite Hw.
    rewrite (IH _ l _ (u - 1) (with_count_lookup _ _ _ _)) by (simpl; lia).
    simpl. rewrite with_count_twice. do 4 f_equal. lia.
Qed.

Lemma valid_with_count w l i z :
  valid_info w l i -> 1 <= z <= G_MAXINT ->
  valid_info (with_count l i z w) l (set_ref_count_field z i).
Proof.
  intros [Hl Hc Hf Hci Hm Hg Hr D] Hz.
  destruct w as [O S I k]. split; try done.
  apply with_count_lookup.
Qed.

Lemma destroyed_with_count w l i z :
  destroyed l (set_ref_count_field z i) (with_count l i z w) = destroyed l i w.
Proof.
  destruct w as [O S I k]. unfold destroyed, with_count, with_infos. simpl.
  by rewrite delete_insert_eq.
Qed.

(** What destruction gives back. *)
Lemma drop_string_None q (S : gmap loc string) l :
  S !! l = None -> drop_string q S !! l = None.
Proof.
  intros H. destruct q as [lq|]; [|done]. simpl.
  by rewrite lookup_delete_None; right.
Qed.

Lemma destroyed_strings w l i p :
  p = content_id i \/ p = mimetype i \/ p = graph i ->
  string_at (destroyed l i w) p = None.
Proof.
  destruct p as [lp|]; [|done]. unfold destroyed. simpl.
  intros [H|[H|H]].
  - do 2 apply drop_string_None. rewrite <- H. apply lookup_delete_eq.
  - apply drop_string_None. rewrite <- H. apply lookup_delete_eq.
  - rewrite <- H. apply lookup_delete_eq.
Qed.

Lemma drop_ref_count l (O : gmap loc GObject) :
  match drop_ref (Some l) O !! l with Some o => g_ref_count o | None => 0%nat end =
  Nat.pred (match O !! l with Some o => g_ref_count o | None => 0%nat end).
Proof.
  unfold drop_ref. destruct (O !! l) as [o|] eqn:Ho; [|by rewrite Ho].
  destruct (g_ref_count o) as [|[|n]] eqn:Hn;
    by rewrite ?lookup_insert_eq, ?lookup_delete_eq.
Qed.

Lemma destroyed_refs w l i :
  valid_info w l i ->
  refs_at (destroyed l i w) (file i) = Nat.pred (refs_at w (file i)) /\
  refs_at (destroyed l i w) (resource i) = Nat.pred (refs_at w (resource i)).
Proof.
  intros [_ _ Hf _ _ _ Hr _]. unfold refs_at, destroyed, object_at, type_at in *.
  simpl in *.
  destruct (file i) as [lf|]; [|done]. simpl in Hf.
  destruct (resource i) as [lr|].
  - destruct Hr as [|Hr]; [done|]. simpl in Hr.
    assert (lf <> lr).
    { intros ->. destruct (objects w !! lr); simpl in *; congruence. }
    split.
    + rewrite drop_ref_lookup_ne by done. apply drop_ref_count.
    + rewrite drop_ref_count. by rewrite drop_ref_lookup_ne.
  - split; [|done]. apply drop_ref_count.
Qed.

(** ** The concrete context *)

Example new_w0 :
  tracker_extract_info_new (Some 1%positive) (Some "abc123") (Some "audio/mpeg") None 0 w0
  = Some (Some 1%positive, w1).
Proof. reflexivity. Qed.

Lemma valid_w1 : valid_info w1 1%positive i1.
Proof.
  split; try done.
  - by exists "abc123".
  - right. by exists "audio/mpeg".
  - by left.
  - by left.
Qed.

Lemma valid_w2 : valid_info w2 1%positive i2.
Proof.
  split; try done.
  - by exists "abc123/3".
  - by left.
  - by left.
  - by left.
Qed.

(** ** The construction contract *)

(** C2. [tracker_extract_info_new] logs a critical and returns NULL when the
    file is not a [GFile] instance or the content id is NULL or empty;
    otherwise it returns a new context with a reference count of one and no
    resource, on which [tracker_extract_info_get_resource] returns NULL. *)
Theorem new_contract w file_ cid mt g mx :
  file_ = NULL \/ is_Some (object_at w file_) ->
  (type_at w file_ <> Some G_TYPE_FILE \/ cid = None \/ cid = Some EmptyString ->
   tracker_extract_info_new file_ cid mt g mx w = Some (NULL, logged w)) /\
  (type_at w file_ = Some G_TYPE_FILE -> (exists s, cid = Some s /\ s <> EmptyString) ->
   exists l i w',
     tracker_extract_info_new file_ cid mt g mx w = Some (Some l, w') /\
     infos w !! l = None /\ infos w' !! l = Some i /\
     criticals w' = criticals w /\
     ref_count i = 1 /\ resource i = NULL /\
     tracker_extract_info_get_resource (Some l) w' = Some (NULL, w')).
Proof.
  intros Hwf. split.
  - intros Hbad. unfold tracker_extract_info_new, G_IS_FILE, g_type_check_instance_is_a.
    unfold type_at in Hbad. unfold bind at 1.
    destruct file_ as [f|]; [|done].
    destruct Hwf as [|[o Ho]]; [done|]. simpl in Ho, Hbad. rewrite Ho in *.
    simpl in Hbad. destruct (decide (g_type o = G_TYPE_FILE)) as [Ht|Ht].
    + rewrite bool_decide_eq_true_2 by done. simpl.
      destruct Hbad as [Hbad|[->| ->]]; [|done..]. by rewrite Ht in Hbad.
    + by rewrite bool_decide_eq_false_2.
  - intros Ht (s & -> & Hs). unfold type_at in Ht.
    destruct file_ as [f|]; [|done]. simpl in Ht.
    destruct (objects w !! f) as [o|] eqn:Ho; [|done].
    assert (g_type o = G_TYPE_FILE) as Hty by (simpl in Ht; congruence).
    destruct (new_valid w f o s mt g mx Ho Hty Hs)
      as (l & i & w' & E & Hl & Hv & _ & Hk & Hc & Hr).
    exists l, i, w'. repeat split; try done.
    + apply Hv.
    + rewrite (get_resource_live _ _ _ (valid_live _ _ _ Hv)). by rewrite Hr.
Qed.

Lemma new_contract_witness :
  tracker_extract_info_new NULL (Some "abc123") None None 0 w0 = Some (NULL, logged w0) /\
  tracker_extract_info_new (Some 1%positive) (Some EmptyString) None None 0 w0
    = Some (NULL, logged w0) /\
  exists l i w',
    tracker_extract_info_new (Some 1%positive) (Some "abc123") None None 0 w0
      = Some (Some l, w') /\
    infos w0 !! l = None /\ infos w' !! l = Some i /\
    criticals w' = criticals w0 /\
    ref_count i = 1 /\ resource i = NULL /\
    tracker_extract_info_get_resource (Some l) w' = Some (NULL, w').
Proof.
  split; [|split].
  - apply (new_contract w0 NULL (Some "abc123") None None 0); [by left|].
    left. vm_compute. discriminate.
  - apply (new_contract w0 (Some 1%positive) (Some EmptyString) None None 0).
    + right. vm_compute. eexists. reflexivity.
    + right. right. reflexivity.
  - apply (new_contract w0 (Some 1%positive) (Some "abc123") None None 0).
    + right. vm_compute. eexists. reflexivity.
    + reflexivity.
    + exists "abc123". split; [reflexivity|discriminate].
Defined.

(** ** Deriving content identifiers *)

Lemma append_cons_neq (s t : string) a : s ++ String a t <> s.
Proof.
  induction s as [|b s IH]; [discriminate|].
  change (String b (s ++ String a t) <> String b s). congruence.
Qed.

Lemma string_at_alloc_new w p s :
  string_at (with_strings (insert p s) w) (Some p) = Some s.
Proof. apply lookup_insert_eq. Qed.

Lemma string_at_alloc_old w p s q :
  strings w !! p = None -> is_Some (string_at w q) ->
  string_at (with_strings (insert p s) w) q = string_at w q.
Proof.
  intros Hp. destruct q as [lq|]; [|done]. simpl. intros [t Ht].
  rewrite lookup_insert_ne; [done|congruence].
Qed.

Lemma valid_alloc w l i p s :
  valid_info w l i -> strings w !! p = None ->
  valid_info (with_strings (insert p s) w) l i.
Proof.
  intros [Hl Hc Hf (c & Hci & Hne) Hm Hg Hr D] Hp.
  pose proof (fun q => string_at_alloc_old w p s q Hp) as Hkeep.
  split; try done.
  - exists c. by rewrite Hkeep.
  - destruct Hm as [|Hm]; [by left|right]. by rewrite Hkeep.
  - destruct Hg as [|Hg]; [by left|right]. by rewrite Hkeep.
Qed.

(** C3. On a validly constructed context [tracker_extract_info_get_content_id]
    returns a new buffer holding the content id itself when the suffix is
    NULL, and the content id, a slash and the suffix otherwise; base id
    abc123 and suffix 3 give abc123/3. *)
Theorem get_content_id_spec w l i cid :
  valid_info w l i -> string_at w (content_id i) = Some cid ->
  (exists p w',
     tracker_extract_info_get_content_id (Some l) None w = Some (p, w') /\
     string_at w' p = Some cid /\ string_at w p = None) /\
  (forall suffix, exists p w',
     tracker_extract_info_get_content_id (Some l) (Some suffix) w = Some (p, w') /\
     string_at w' p = Some (cid ++ "/" ++ suffix) /\ string_at w p = None) /\
  (cid = "abc123" -> exists p w',
     tracker_extract_info_get_content_id (Some l) (Some "3") w = Some (p, w') /\
     string_at w' p = Some "abc123/3").
Proof.
  intros Hv Hc. pose proof (valid_live _ _ _ Hv) as Hl.
  split; [|split].
  - destruct (get_content_id_live w l i cid None Hl Hc) as (p & Hp & E).
    eexists _, _. split; [exact E|]. split; [|done].
    apply string_at_alloc_new.
  - intros suffix.
    destruct (get_content_id_live w l i cid (Some suffix) Hl Hc) as (p & Hp & E).
    eexists _, _. split; [exact E|]. split; [|done].
    apply string_at_alloc_new.
  - intros ->.
    destruct (get_content_id_live w l i "abc123" (Some "3") Hl Hc) as (p & Hp & E).
    eexists _, _. split; [exact E|]. apply string_at_alloc_new.
Qed.

Lemma get_content_id_spec_witness :
  (exists p w',
     tracker_extract_info_get_content_id (Some 1%positive) None w1 = Some (p, w') /\
     string_at w' p = Some "abc123" /\ string_at w1 p = None) /\
  (forall suffix, exists p w',
     tracker_extract_info_get_content_id (Some 1%positive) (Some suffix) w1 = Some (p, w') /\
     string_at w' p = Some ("abc123" ++ "/" ++ suffix) /\ string_at w1 p = None) /\
  ("abc123" = "abc123" -> exists p w',
     tracker_extract_info_get_content_id (Some 1%positive) (Some "3") w1 = Some (p, w') /\
     string_at w' p = Some "abc123/3").
Proof. apply (get_content_id_spec w1 1%positive i1 "abc123"); [exact valid_w1|reflexivity]. Defined.

(** C5. [tracker_extract_info_get_content_id] is deterministic and leaves
    the context alone: two calls in a row with the same suffix return
    buffers with the same characters, and neither call changes a field of
    the context, an object, the log or a buffer that existed before. *)
Theorem get_content_id_pure w l i suffix :
  valid_info w l i ->
  exists p wa q wb s,
    tracker_extract_info_get_content_id (Some l) suffix w = Some (p, wa) /\
    tracker_extract_info_get_content_id (Some l) suffix wa = Some (q, wb) /\
    string_at wa p = Some s /\ string_at wb q = Some s /\
    infos wa = infos w /\ infos wb = infos w /\
    objects wa = objects w /\ objects wb = objects w /\
    criticals wa = criticals w /\ criticals wb = criticals w /\
    strings w ⊆ strings wa /\ strings wa ⊆ strings wb /\
    valid_info wa l i /\ valid_info wb l i.
Proof.
  intros Hv. pose proof (valid_live _ _ _ Hv) as Hl.
  destruct (valid_content_id _ _ _ Hv) as (c & Hc & _).
  destruct (get_content_id_live w l i c suffix Hl Hc) as (p & Hp & E).
  set (s := match suffix with Some s => c ++ "/" ++ s | None => c end) in *.
  set (wa := with_strings (insert p s) w) in *.
  assert (Hva : valid_info wa l i) by (by apply valid_alloc).
  assert (Hca : string_at wa (content_id i) = Some c).
  { unfold wa. rewrite string_at_alloc_old; [done..|by rewrite Hc]. }
  destruct (get_content_id_live wa l i c suffix (valid_live _ _ _ Hva) Hca)
    as (q & Hq & E').
  fold s in E'. set (wb := with_strings (insert q s) wa) in *.
  exists (Some p), wa, (Some q), wb, s.
  split_and!; try done.
  - apply lookup_insert_eq.
  - apply lookup_insert_eq.
  - by apply insert_subseteq.
  - by apply insert_subseteq.
  - by apply valid_alloc.
Qed.

Lemma get_content_id_pure_witness :
  exists p wa q wb s,
    tracker_extract_info_get_content_id (Some 1%positive) (Some "3") w1 = Some (p, wa) /\
    tracker_extract_info_get_content_id (Some 1%positive) (Some "3") wa = Some (q, wb) /\
    string_at wa p = Some s /\ string_at wb q = Some s /\
    infos wa = infos w1 /\ infos wb = infos w1 /\
    objects wa = objects w1 /\ objects wb = objects w1 /\
    criticals wa = criticals w1 /\ criticals wb = criticals w1 /\
    strings w1 ⊆ strings wa /\ strings wa ⊆ strings wb /\
    valid_info wa 1%positive i1 /\ valid_info wb 1%positive i1.
Proof. exact (get_content_id_pure w1 1%positive i1 (Some "3") valid_w1). Defined.

(** C9. With an empty suffix the result is the content id followed by the
    slash, which is not what a NULL suffix gives, the content id alone; and
    whatever the suffix, it is appended as it is. *)
Theorem get_content_id_empty_suffix w l i cid :
  valid_info w l i -> string_at w (content_id i) = Some cid ->
  (exists p wa q wb,
     tracker_extract_info_get_content_id (Some l) (Some EmptyString) w = Some (p, wa) /\
     string_at wa p = Some (cid ++ "/") /\
     tracker_extract_info_get_content_id (Some l) None w = Some (q, wb) /\
     string_at wb q = Some cid /\
     string_at wa p <> string_at wb q) /\
  (forall suffix, exists p w',
     tracker_extract_info_get_content_id (Some l) (Some suffix) w = Some (p, w') /\
     string_at w' p = Some (cid ++ "/" ++ suffix)).
Proof.
  intros Hv Hc. pose proof (valid_live _ _ _ Hv) as Hl. split.
  - destruct (get_content_id_live w l i cid (Some EmptyString) Hl Hc) as (p & Hp & E).
    destruct (get_content_id_live w l i cid None Hl Hc) as (q & Hq & E').
    eexists _, _, _, _. split; [exact E|]. split; [apply string_at_alloc_new|].
    split; [exact E'|]. split; [apply string_at_alloc_new|].
    rewrite !string_at_alloc_new. intros [= H]. by apply append_cons_neq in H.
  - intros suffix.
    destruct (get_content_id_live w l i cid (Some suffix) Hl Hc) as (p & Hp & E).
    eexists _, _. split; [exact E|]. apply string_at_alloc_new.
Qed.

Lemma get_content_id_empty_suffix_witness :
  (exists p wa q wb,
     tracker_extract_info_get_content_id (Some 1%positive) (Some EmptyString) w1
       = Some (p, wa) /\
     string_at wa p = Some "abc123/" /\
     tracker_extract_info_get_content_id (Some 1%positive) None w1 = Some (q, wb) /\
     string_at wb q = Some "abc123" /\
     string_at wa p <> string_at wb q) /\
  (forall suffix, exists p w',
     tracker_extract_info_get_content_id (Some 1%positive) (Some suffix) w1 = Some (p, w') /\
     string_at w' p = Some ("abc123" ++ "/" ++ suffix)).
Proof.
  exact (get_content_id_empty_suffix w1 1%positive i1 "abc123" valid_w1 eq_refl).
Defined.

(** ** Attaching a resource *)

Lemma type_at_ref w r o q :
  objects w !! r = Some o ->
  option_map g_type (<[r := mkGObject (g_type o) (S (g_ref_count o))]> (objects w)
                       !! q) = option_map g_type (objects w !! q).
Proof.
  intros Ho. destruct (decide (r = q)) as [<-|Hne].
  - by rewrite lookup_insert_eq, Ho.
  - by rewrite lookup_insert_ne.
Qed.

Lemma valid_set_resource w l i r o :
  valid_info w l i -> objects w !! r = Some o -> g_type o = TRACKER_TYPE_RESOURCE ->
  valid_info (mkWorld (<[r := mkGObject (g_type o) (S (g_ref_count o))]> (objects w))
                      (strings w)
                      (<[l := set_resource_field (Some r) i]> (infos w))
                      (criticals w))
             l (set_resource_field (Some r) i).
Proof.
  intros [Hl Hc Hf Hci Hm Hg Hr D] Ho Ht.
  split; try done.
  - apply lookup_insert_eq.
  - unfold type_at in *. simpl. destruct (file i) as [lf|]; [|done]. simpl in *.
    by rewrite (type_at_ref w r o lf Ho).
  - right. unfold type_at. simpl. rewrite lookup_insert_eq. simpl. by rewrite Ht.
Qed.

(** C6. On a validly constructed context every accessor and the derivation
    of content ids return normally and log no critical, and so does the
    attachment of any live resource. *)
Theorem accessors_total w l i :
  valid_info w l i ->
  tracker_extract_info_get_file (Some l) w = Some (file i, w) /\
  (forall suffix, exists p w',
     tracker_extract_info_get_content_id (Some l) suffix w = Some (Some p, w') /\
     criticals w' = criticals w) /\
  tracker_extract_info_get_mimetype (Some l) w = Some (mimetype i, w) /\
  tracker_extract_info_get_graph (Some l) w = Some (graph i, w) /\
  tracker_extract_info_get_max_text (Some l) w = Some (max_text i, w) /\
  tracker_extract_info_get_resource (Some l) w = Some (resource i, w) /\
  (forall r, type_at w r = Some TRACKER_TYPE_RESOURCE ->
   exists w',
     tracker_extract_info_set_resource (Some l) r w = Some (tt, w') /\
     criticals w' = criticals w /\
     valid_info w' l (set_resource_field r i) /\
     tracker_extract_info_get_resource (Some l) w' = Some (r, w')).
Proof.
  intros Hv. pose proof (valid_live _ _ _ Hv) as Hl.
  split_and!.
  - by apply get_file_live.
  - intros suffix. destruct (valid_content_id _ _ _ Hv) as (c & Hc & _).
    destruct (get_content_id_live w l i c suffix Hl Hc) as (p & _ & E).
    eexists _, _. split; [exact E|done].
  - by apply get_mimetype_live.
  - by apply get_graph_live.
  - by apply get_max_text_live.
  - by apply get_resource_live.
  - intros r Hr. unfold type_at in Hr. destruct r as [lr|]; [|done]. simpl in Hr.
    destruct (objects w !! lr) as [o|] eqn:Ho; [|done].
    assert (g_type o = TRACKER_TYPE_RESOURCE) as Ht by (simpl in Hr; congruence).
    eexists. split; [by apply set_resource_live|]. split; [done|].
    split; [by apply valid_set_resource|].
    apply (get_resource_live _ _ (set_resource_field (Some lr) i)).
    apply lookup_insert_eq.
Qed.

Lemma accessors_total_witness :
  tracker_extract_info_get_file (Some 1%positive) w2 = Some (file i2, w2) /\
  (forall suffix, exists p w',
     tracker_extract_info_get_content_id (Some 1%positive) suffix w2 = Some (Some p, w') /\
     criticals w' = criticals w2) /\
  tracker_extract_info_get_mimetype (Some 1%positive) w2 = Some (mimetype i2, w2) /\
  tracker_extract_info_get_graph (Some 1%positive) w2 = Some (graph i2, w2) /\
  tracker_extract_info_get_max_text (Some 1%positive) w2 = Some (max_text i2, w2) /\
  tracker_extract_info_get_resource (Some 1%positive) w2 = Some (resource i2, w2) /\
  (exists w',
     tracker_extract_info_set_resource (Some 1%positive) (Some 2%positive) w1
       = Some (tt, w') /\
     criticals w' = criticals w1 /\
     valid_info w' 1%positive (set_resource_field (Some 2%positive) i1) /\
     tracker_extract_info_get_resource (Some 1%positive) w' = Some (Some 2%positive, w')).
Proof.
  destruct (accessors_total w2 1%positive i2 valid_w2) as (G1 & G2 & G3 & G4 & G5 & G6 & _).
  destruct (accessors_total w1 1%positive i1 valid_w1) as (_ & _ & _ & _ & _ & _ & G7).
  split_and!; try assumption.
  apply (G7 (Some 2%positive)). reflexivity.
Defined.

(** C10. [tracker_extract_info_set_resource] writes the resource field and
    nothing else of the context: the other six fields, the other contexts
    and all buffers are as before. *)
Theorem set_resource_frame w l i r :
  infos w !! l = Some i -> r = NULL \/ is_Some (object_at w r) ->
  exists w' i',
    tracker_extract_info_set_resource (Some l) r w = Some (tt, w') /\
    infos w' !! l = Some i' /\ resource i' = r /\
    file i' = file i /\ content_id i' = content_id i /\
    mimetype i' = mimetype i /\ graph i' = graph i /\
    max_text i' = max_text i /\ ref_count i' = ref_count i /\
    strings w' = strings w /\
    (forall l', l' <> l -> infos w' !! l' = infos w !! l').
Proof.
  intros Hl Hr. destruct r as [lr|].
  - destruct Hr as [|[o Ho]]; [done|]. simpl in Ho.
    eexists _, (set_resource_field (Some lr) i).
    split; [by apply set_resource_live|]. simpl.
    split_and!; try done; [apply lookup_insert_eq|].
    intros l' Hne. by rewrite lookup_insert_ne.
  - exists (with_infos (insert l (set_resource_field NULL i)) (logged w)),
           (set_resource_field NULL i).
    split.
    + unfold tracker_extract_info_set_resource, g_object_ref, g_critical, bind. simpl.
      unfold store. simpl. by rewrite Hl.
    + simpl. split_and!; try done; [apply lookup_insert_eq|].
      intros l' Hne. by rewrite lookup_insert_ne.
Qed.

Lemma set_resource_frame_witness :
  exists w' i',
    tracker_extract_info_set_resource (Some 1%positive) (Some 2%positive) w1
      = Some (tt, w') /\
    infos w' !! 1%positive = Some i' /\ resource i' = Some 2%positive /\
    file i' = file i1 /\ content_id i' = content_id i1 /\
    mimetype i' = mimetype i1 /\ graph i' = graph i1 /\
    max_text i' = max_text i1 /\ ref_count i' = ref_count i1 /\
    strings w' = strings w1 /\
    (forall l', l' <> 1%positive -> infos w' !! l' = infos w1 !! l').
Proof.
  apply (set_resource_frame w1 1%positive i1 (Some 2%positive)).
  - reflexivity.
  - right. vm_compute. eexists. reflexivity.
Defined.

(** ** Acquire and release *)

Lemma ref_unref_id w l i :
  infos w !! l = Some i -> G_MININT <= ref_count i <= G_MAXINT -> ref_count i <> 0 ->
  (tracker_extract_info_ref (Some l) ;;; tracker_extract_info_unref (Some l)) w
    = Some (tt, w).
Proof.
  intros Hl Hc Hz.
  rewrite (bind_Some _ _ _ _ _ (ref_live _ _ _ Hl)).
  fold (with_count l i (wrap_gint (ref_count i + 1)) w).
  assert (Hback : wrap_gint (wrap_gint (ref_count i + 1) - 1) = ref_count i).
  { unfold Z.sub. rewrite wrap_gint_add.
    replace (ref_count i + 1 + - (1)) with (ref_count i) by lia.
    by apply wrap_gint_small. }
  rewrite (unref_keeps _ l _ (with_count_lookup _ _ _ _)); simpl; rewrite Hback.
  - fold (with_count l (set_ref_count_field (wrap_gint (ref_count i + 1)) i)
            (ref_count i) (with_count l i (wrap_gint (ref_count i + 1)) w)).
    by rewrite with_count_twice, with_count_id.
  - done.
Qed.

(** C4, within the width of [gint]. On a validly constructed context with
    count [c], as long as [c + n] does not exceed 2^32: acquire then release
    gives back the very same state; after [n] acquires, any [k] releases
    with [k < c + n] leave the context alive, its count [c + n - k] read as
    a [gint] (the number itself up to [G_MAXINT], and zero only for 2^32
    references), so [n] of them give back the state before the acquires;
    and release number
    [c + n] destroys the context, dropping one reference on the file and on
    the attached resource and freeing the three buffers. *)
Theorem acquire_release_balance w l i (n : N) :
  valid_info w l i -> ref_count i + Z.of_N n <= 4294967296 ->
  (tracker_extract_info_ref (Some l) ;;; tracker_extract_info_unref (Some l)) w
    = Some (tt, w) /\
  (forall k : N, Z.of_N k < ref_count i + Z.of_N n ->
     (repeat_N n (tracker_extract_info_ref (Some l)) ;;;
      repeat_N k (tracker_extract_info_unref (Some l))) w
       = Some (tt, with_count l i (wrap_gint (ref_count i + Z.of_N n - Z.of_N k)) w) /\
     infos (with_count l i (wrap_gint (ref_count i + Z.of_N n - Z.of_N k)) w) !! l
       = Some (set_ref_count_field (wrap_gint (ref_count i + Z.of_N n - Z.of_N k)) i) /\
     (ref_count i + Z.of_N n - Z.of_N k < 4294967296 ->
      wrap_gint (ref_count i + Z.of_N n - Z.of_N k) <> 0) /\
     (ref_count i + Z.of_N n - Z.of_N k <= G_MAXINT ->
      wrap_gint (ref_count i + Z.of_N n - Z.of_N k)
        = ref_count i + Z.of_N n - Z.of_N k)) /\
  (repeat_N n (tracker_extract_info_ref (Some l)) ;;;
   repeat_N n (tracker_extract_info_unref (Some l))) w = Some (tt, w) /\
  (forall k : N, Z.of_N k = ref_count i + Z.of_N n ->
     (repeat_N n (tracker_extract_info_ref (Some l)) ;;;
      repeat_N k (tracker_extract_info_unref (Some l))) w
       = Some (tt, destroyed l i w)) /\
  infos (destroyed l i w) !! l = None /\
  refs_at (destroyed l i w) (file i) = Nat.pred (refs_at w (file i)) /\
  refs_at (destroyed l i w) (resource i) = Nat.pred (refs_at w (resource i)) /\
  string_at (destroyed l i w) (content_id i) = None /\
  string_at (destroyed l i w) (mimetype i) = None /\
  string_at (destroyed l i w) (graph i) = None.
Proof.
  intros Hv Hn.
  pose proof (valid_live _ _ _ Hv) as Hl.
  pose proof (valid_ref_count _ _ _ Hv) as Hc.
  assert (Hrange : G_MININT <= ref_count i <= G_MAXINT)
    by (unfold G_MININT, G_MAXINT in *; lia).
  pose proof (acquire_n n w l i Hl Hrange) as Hacq.
  set (u := ref_count i + Z.of_N n) in *.
  assert (Hkeep : forall k : N, Z.of_N k < u ->
     (repeat_N n (tracker_extract_info_ref (Some l)) ;;;
      repeat_N k (tracker_extract_info_unref (Some l))) w
       = Some (tt, with_count l i (wrap_gint (u - Z.of_N k)) w)).
  { intros k Hk. rewrite (bind_Some _ _ _ _ _ Hacq).
    rewrite (release_k k _ l _ u (with_count_lookup _ _ _ _)); [|done|unfold u in *; lia].
    by rewrite with_count_twice. }
  split_and!.
  - apply (ref_unref_id w l i); [done..|lia].
  - intros k Hk. split_and!.
    + by apply Hkeep.
    + apply with_count_lookup.
    + intros Hs. apply wrap_gint_nonzero. unfold u in *. lia.
    + intros Hs. apply wrap_gint_small. unfold u, G_MININT, G_MAXINT in *. lia.
  - rewrite (Hkeep n) by (unfold u; lia).
    replace (u - Z.of_N n) with (ref_count i) by (unfold u; lia).
    rewrite wrap_gint_small by done. by rewrite with_count_id.
  - intros k Hk.
    destruct (N.zero_or_succ k) as [->|[k' ->]]; [unfold u in *; lia|].
    rewrite (bind_Some _ _ _ _ _ Hacq), repeat_N_succ_r.
    rewrite (bind_Some _ _ _ _ _
               (release_k k' _ l _ u (with_count_lookup _ _ _ _) eq_refl
                  ltac:(unfold u in *; lia))).
    rewrite with_count_twice.
    replace (u - Z.of_N k') with 1 by (unfold u in *; lia).
    change (wrap_gint 1) with 1.
    rewrite (bind_Some _ _ _ _ _
               (unref_destroys _ l _ (valid_with_count w l i 1 Hv ltac:(done)) eq_refl)).
    by rewrite destroyed_with_count.
  - apply lookup_delete_eq.
  - by apply destroyed_refs.
  - by apply destroyed_refs.
  - apply destroyed_strings. by left.
  - apply destroyed_strings. right. by left.
  - apply destroyed_strings. right. by right.
Qed.

Lemma valid_w_max : valid_info w_max 1%positive i_max.
Proof.
  split; try done.
  - by exists "abc123".
  - right. by exists "audio/mpeg".
  - by left.
  - by left.
Qed.

Lemma acquire_release_balance_witness :
  (tracker_extract_info_ref (Some 1%positive) ;;;
   tracker_extract_info_unref (Some 1%positive)) w1 = Some (tt, w1) /\
  (repeat_N 3 (tracker_extract_info_ref (Some 1%positive)) ;;;
   repeat_N 3 (tracker_extract_info_unref (Some 1%positive))) w1 = Some (tt, w1) /\
  (repeat_N 3 (tracker_extract_info_ref (Some 1%positive)) ;;;
   repeat_N 4 (tracker_extract_info_unref (Some 1%positive))) w1
    = Some (tt, destroyed 1%positive i1 w1) /\
  infos (destroyed 1%positive i1 w1) !! 1%positive = None /\
  (repeat_N 2 (tracker_extract_info_ref (Some 1%positive)) ;;;
   repeat_N 2 (tracker_extract_info_unref (Some 1%positive))) w_max = Some (tt, w_max).
Proof.
  assert (Hn : ref_count i1 + Z.of_N 3 <= 4294967296) by (vm_compute; discriminate).
  assert (Hm : ref_count i_max + Z.of_N 2 <= 4294967296) by (vm_compute; discriminate).
  destruct (acquire_release_balance w1 1%positive i1 3 valid_w1 Hn)
    as (H1 & _ & H3 & H4 & H5 & _).
  destruct (acquire_release_balance w_max 1%positive i_max 2 valid_w_max Hm)
    as (_ & _ & H3' & _).
  split; [exact H1|]. split; [exact H3|]. split; [|split; [exact H5|exact H3']].
  apply H4. reflexivity.
Defined.

(** C4 as stated, without the bound, fails. The count is a [gint]: 2^32
    acquires bring it back to where it was, so on a fresh context the first
    release after them already destroys the context, and 2^32 releases run
    into the freed slice. *)
Lemma acquire_wraps_around :
  valid_info w1 1%positive i1 /\ ref_count i1 = 1 /\
  (repeat_N 4294967296 (tracker_extract_info_ref (Some 1%positive)) ;;;
   tracker_extract_info_unref (Some 1%positive)) w1
    = Some (tt, destroyed 1%positive i1 w1) /\
  infos (destroyed 1%positive i1 w1) !! 1%positive = None /\
  (repeat_N 4294967296 (tracker_extract_info_ref (Some 1%positive)) ;;;
   repeat_N 4294967296 (tracker_extract_info_unref (Some 1%positive))) w1 = None.
Proof.
  assert (Hacq : repeat_N 4294967296 (tracker_extract_info_ref (Some 1%positive)) w1
                 = Some (tt, w1)).
  { rewrite (acquire_n 4294967296 w1 1%positive i1 eq_refl)
      by (split; vm_compute; discriminate).
    change (wrap_gint (ref_count i1 + Z.of_N 4294967296)) with (ref_count i1).
    by rewrite with_count_id. }
  pose proof (unref_destroys w1 1%positive i1 valid_w1 eq_refl) as Hdes.
  assert (Hgone : tracker_extract_info_unref (Some 1%positive)
                    (destroyed 1%positive i1 w1) = None) by reflexivity.
  split; [exact valid_w1|]. split; [reflexivity|].
  split; [by rewrite (bind_Some _ _ _ _ _ Hacq)|].
  split; [reflexivity|].
  rewrite (bind_Some _ _ _ _ _ Hacq).
  change 4294967296%N with (N.succ (N.succ 4294967294)).
  rewrite repeat_N_succ, (bind_Some _ _ _ _ _ Hdes), repeat_N_succ.
  unfold bind at 1. by rewrite Hgone.
Qed.

(** ** The content id never changes *)

Lemma bind_inv {A B} (m : M A) (k : A -> M B) w b w' :
  bind m k w = Some (b, w') -> exists a wm, m w = Some (a, wm) /\ k a wm = Some (b, w').
Proof.
  unfold bind. destruct (m w) as [[a wm]|]; [|done]. intros H. by exists a, wm.
Qed.

Lemma g_object_ref_stable p w a w' :
  g_object_ref p w = Some (a, w') -> infos w' = infos w /\ strings w' = strings w.
Proof.
  destruct p as [l|]; simpl.
  - destruct (objects w !! l) as [o|]; [|done]. by intros [= <- <-].
  - by intros [= <- <-].
Qed.

Lemma unref_gone_or_counted w l i w' :
  infos w !! l = Some i ->
  tracker_extract_info_unref (Some l) w = Some (tt, w') ->
  infos w' !! l = None \/
  w' = with_infos (insert l (set_ref_count_field (wrap_gint (ref_count i - 1)) i)) w.
Proof.
  intros Hl. unfold tracker_extract_info_unref.
  rewrite (bind_Some _ _ _ _ _ (dec_and_test_live _ _ _ Hl)).
  destruct (bool_decide _); [|intros [= <-]; by right].
  intros H. left.
  apply bind_inv in H as (j & wa & _ & H).
  apply bind_inv in H as (? & wb & _ & H).
  apply bind_inv in H as (? & wc & _ & H).
  apply bind_inv in H as (? & wd & _ & H).
  apply bind_inv in H as (? & we & _ & H).
  apply bind_inv in H as (? & wf & _ & H).
  unfold g_slice_free in H. destruct (infos wf !! l); [|done].
  injection H as <-. apply lookup_delete_eq.
Qed.

Lemma run_gone l o w : infos w !! l = None -> run (Some l) o w = None.
Proof.
  intros Hgone. destruct o; simpl;
    unfold tracker_extract_info_ref, tracker_extract_info_unref,
      tracker_extract_info_set_resource, tracker_extract_info_get_content_id,
      tracker_extract_info_get_file, tracker_extract_info_get_mimetype,
      tracker_extract_info_get_graph, tracker_extract_info_get_resource,
      tracker_extract_info_get_max_text, g_atomic_int_inc,
      g_atomic_int_dec_and_test, bind, load, store;
    rewrite ?Hgone; try done.
  destruct r as [lr|]; simpl; [|by rewrite Hgone].
  destruct (objects w !! lr); simpl; [|done]. by rewrite Hgone.
Qed.

(** One operation leaves the content id where it is, unless it is the
    release that frees the context. *)
Lemma run_holds_content_id l c cid o w w' :
  holds_content_id l c cid w -> run (Some l) o w = Some (tt, w') ->
  holds_content_id l c cid w' \/ (o = Release /\ infos w' !! l = None).
Proof.
  intros (i & Hl & Hc & Hs) Hrun.
  destruct o as [| |r|suffix| | | | |]; unfold run in Hrun.
  - rewrite (bind_Some _ _ _ _ _ (ref_live _ _ _ Hl)) in Hrun.
    injection Hrun as <-. left. eexists. split; [apply lookup_insert_eq|done].
  - destruct (unref_gone_or_counted _ _ _ _ Hl Hrun) as [H| ->]; [by right|].
    left. eexists. split; [apply lookup_insert_eq|done].
  - unfold tracker_extract_info_set_resource in Hrun.
    apply bind_inv in Hrun as (? & wa & Href & Hrun).
    apply g_object_ref_stable in Href as [Hi Hst].
    unfold store in Hrun. rewrite Hi, Hl in Hrun. injection Hrun as <-.
    left. eexists. split; [apply lookup_insert_eq|]. split; [done|].
    destruct c as [lc|]; [|done]. simpl in *. by rewrite Hst.
  - rewrite <- Hc in Hs.
    destruct (get_content_id_live w l i cid suffix Hl Hs) as (p & Hp & E).
    rewrite (bind_Some _ _ _ _ _ E) in Hrun. injection Hrun as <-.
    left. exists i. split; [done|]. split; [done|]. rewrite <- Hc.
    rewrite string_at_alloc_old; [done..|by rewrite Hs].
  - rewrite (bind_Some _ _ _ _ _ (get_file_live _ _ _ Hl)) in Hrun.
    injection Hrun as <-. left. by exists i.
  - rewrite (bind_Some _ _ _ _ _ (get_mimetype_live _ _ _ Hl)) in Hrun.
    injection Hrun as <-. left. by exists i.
  - rewrite (bind_Some _ _ _ _ _ (get_graph_live _ _ _ Hl)) in Hrun.
    injection Hrun as <-. left. by exists i.
  - rewrite (bind_Some _ _ _ _ _ (get_resource_live _ _ _ Hl)) in Hrun.
    injection Hrun as <-. left. by exists i.
  - rewrite (bind_Some _ _ _ _ _ (get_max_text_live _ _ _ Hl)) in Hrun.
    injection Hrun as <-. left. by exists i.
Qed.

(** Nothing runs on a freed context. *)
Lemma run_all_gone l os w w' :
  infos w !! l = None -> run_all (Some l) os w = Some (tt, w') -> os = [] /\ w' = w.
Proof.
  intros Hgone Hrun. destruct os as [|o os].
  - by injection Hrun as <-.
  - simpl in Hrun. apply bind_inv in Hrun as (? & wm & Ho & _).
    by rewrite run_gone in Ho.
Qed.

Lemma run_all_holds_content_id l c cid os : forall w w',
  holds_content_id l c cid w -> run_all (Some l) os w = Some (tt, w') ->
  holds_content_id l c cid w' \/ (In Release os /\ infos w' !! l = None).
Proof.
  induction os as [|o os IH]; intros w w' Hk Hrun.
  - injection Hrun as <-. by left.
  - simpl in Hrun. apply bind_inv in Hrun as ([] & wm & Ho & Hrun).
    destruct (run_holds_content_id _ _ _ _ _ _ Hk Ho) as [Hm|[-> Hgone]].
    + destruct (IH _ _ Hm Hrun) as [H|[Hin H]]; [by left|right].
      split; [by right|done].
    + destruct (run_all_gone _ _ _ _ Hgone Hrun) as [-> ->].
      right. split; [by left|done].
Qed.

(** Such an operation returns, and frees no object. *)
Lemma run_keeps_alive l c cid w0 o w :
  holds_content_id l c cid w ->
  (forall q, is_Some (objects w0 !! q) -> is_Some (objects w !! q)) ->
  keeps_alive w0 o ->
  exists w',
    run (Some l) o w = Some (tt, w') /\
    (forall q, is_Some (objects w0 !! q) -> is_Some (objects w' !! q)).
Proof.
  intros (i & Hl & Hc & Hs) Hobj Hok.
  destruct o as [| |r|suffix| | | | |]; unfold run; simpl in Hok.
  - rewrite (bind_Some _ _ _ _ _ (ref_live _ _ _ Hl)). by eexists.
  - done.
  - destruct r as [lr|]; [|by destruct Hok]. simpl in Hok.
    destruct (Hobj _ Hok) as [q Hq].
    rewrite (set_resource_live _ _ _ _ _ Hl Hq). eexists. split; [done|].
    intros q' Hq'. simpl. destruct (decide (lr = q')) as [<-|Hne].
    + by rewrite lookup_insert_eq.
    + rewrite lookup_insert_ne by done. by apply Hobj.
  - rewrite <- Hc in Hs.
    destruct (get_content_id_live w l i cid suffix Hl Hs) as (p & _ & E).
    rewrite (bind_Some _ _ _ _ _ E). by eexists.
  - rewrite (bind_Some _ _ _ _ _ (get_file_live _ _ _ Hl)). by eexists.
  - rewrite (bind_Some _ _ _ _ _ (get_mimetype_live _ _ _ Hl)). by eexists.
  - rewrite (bind_Some _ _ _ _ _ (get_graph_live _ _ _ Hl)). by eexists.
  - rewrite (bind_Some _ _ _ _ _ (get_resource_live _ _ _ Hl)). by eexists.
  - rewrite (bind_Some _ _ _ _ _ (get_max_text_live _ _ _ Hl)). by eexists.
Qed.

Lemma run_all_keeps_alive l c cid w0 os : forall w,
  holds_content_id l c cid w ->
  (forall q, is_Some (objects w0 !! q) -> is_Some (objects w !! q)) ->
  Forall (keeps_alive w0) os ->
  exists w', run_all (Some l) os w = Some (tt, w') /\ holds_content_id l c cid w'.
Proof.
  induction os as [|o os IH]; intros w Hk Hobj Hok.
  - by exists w.
  - apply Forall_cons in Hok as [Ho Hos].
    destruct (run_keeps_alive _ _ _ _ _ _ Hk Hobj Ho) as (wm & Hrun & Hobj').
    destruct (run_holds_content_id _ _ _ _ _ _ Hk Hrun) as [Hm|[-> _]]; [|done].
    destruct (IH wm Hm Hobj' Hos) as (w' & Hrest & Hk').
    exists w'. split; [|done]. simpl. by rewrite (bind_Some _ _ _ _ _ Hrun).
Qed.

(** C7. The content id is written once, by [tracker_extract_info_new], from
    the non-empty string the caller supplies (an empty one is refused): the
    new context exists and its content id is a buffer holding the supplied
    characters. No sequence of operations on the context changes it
    afterwards: the context is gone only after a release, and as long as it
    exists its content id field is the same buffer, holding the supplied
    characters, and reading it gives them back; sequences without a release
    that attach only live objects always run to their end. *)
Theorem content_id_immutable w f o s mt g mx :
  objects w !! f = Some o -> g_type o = G_TYPE_FILE -> s <> EmptyString ->
  tracker_extract_info_new (Some f) (Some EmptyString) mt g mx w = Some (NULL, logged w) /\
  exists l c wa i0,
    tracker_extract_info_new (Some f) (Some s) mt g mx w = Some (Some l, wa) /\
    infos w !! l = None /\
    infos wa !! l = Some i0 /\ content_id i0 = c /\ string_at wa c = Some s /\
    (forall os wb,
      run_all (Some l) os wa = Some (tt, wb) ->
      (In Release os /\ infos wb !! l = None) \/
      exists i p wc,
        infos wb !! l = Some i /\ content_id i = c /\
        string_at wb (content_id i) = Some s /\
        tracker_extract_info_get_content_id (Some l) None wb = Some (p, wc) /\
        string_at wc p = Some s) /\
    (forall os, Forall (keeps_alive wa) os ->
      exists wb i,
        run_all (Some l) os wa = Some (tt, wb) /\
        infos wb !! l = Some i /\ content_id i = c /\ string_at wb c = Some s).
Proof.
  intros Ho Ht Hs. split.
  - unfold tracker_extract_info_new, G_IS_FILE, g_type_check_instance_is_a.
    unfold bind at 1. rewrite Ho, bool_decide_eq_true_2 by done. reflexivity.
  - destruct (new_valid w f o s mt g mx Ho Ht Hs)
      as (l & i & wa & E & Hfresh & Hv & Hc & _).
    assert (Hk : holds_content_id l (content_id i) s wa).
    { exists i. split; [apply Hv|done]. }
    exists l, (content_id i), wa, i. split; [exact E|].
    split; [exact Hfresh|]. split; [apply Hv|]. split; [done|]. split; [exact Hc|].
    split.
    + intros os wb Hrun.
      destruct (run_all_holds_content_id _ _ _ _ _ _ Hk Hrun)
        as [(j & Hl & Hj & Hsj)|Hgone]; [right|by left].
      rewrite <- Hj in Hsj.
      destruct (get_content_id_live wb l j s None Hl Hsj) as (p & Hp & E').
      eexists j, _, _. split_and!; try done. apply string_at_alloc_new.
    + intros os Hos.
      destruct (run_all_keeps_alive l _ _ wa os wa Hk ltac:(done) Hos)
        as (wb & Hrun & j & Hl & Hj & Hsj).
      by exists wb, j.
Qed.

Lemma content_id_immutable_witness :
  tracker_extract_info_new (Some 1%positive) (Some EmptyString) (Some "audio/mpeg") None 0 w0
    = Some (NULL, logged w0) /\
  exists l c wa i0,
    tracker_extract_info_new (Some 1%positive) (Some "abc123") (Some "audio/mpeg") None 0 w0
      = Some (Some l, wa) /\
    infos w0 !! l = None /\
    infos wa !! l = Some i0 /\ content_id i0 = c /\ string_at wa c = Some "abc123" /\
    (forall os wb,
      run_all (Some l) os wa = Some (tt, wb) ->
      (In Release os /\ infos wb !! l = None) \/
      exists i p wc,
        infos wb !! l = Some i /\ content_id i = c /\
        string_at wb (content_id i) = Some "abc123" /\
        tracker_extract_info_get_content_id (Some l) None wb = Some (p, wc) /\
        string_at wc p = Some "abc123") /\
    (forall os, Forall (keeps_alive wa) os ->
      exists wb i,
        run_all (Some l) os wa = Some (tt, wb) /\
        infos wb !! l = Some i /\ content_id i = c /\ string_at wb c = Some "abc123").
Proof.
  apply (content_id_immutable w0 1%positive (mkGObject G_TYPE_FILE 1) "abc123").
  - reflexivity.
  - reflexivity.
  - discriminate.
Defined.

(** ** Replacing the resource *)

(** Attaching a second resource keeps the reference taken on the first. *)
Lemma set_resource_twice w l i r1 r2 o1 o2 :
  infos w !! l = Some i -> objects w !! r1 = Some o1 -> objects w !! r2 = Some o2 ->
  r1 <> r2 ->
  exists w',
    (tracker_extract_info_set_resource (Some l) (Some r1) ;;;
     tracker_extract_info_set_resource (Some l) (Some r2)) w = Some (tt, w') /\
    tracker_extract_info_get_resource (Some l) w' = Some (Some r2, w') /\
    refs_at w' (Some r1) = S (refs_at w (Some r1)) /\
    refs_at w' (Some r2) = S (refs_at w (Some r2)).
Proof.
  intros Hl H1 H2 Hne.
  rewrite (bind_Some _ _ _ _ _ (set_resource_live _ _ _ _ _ Hl H1)).
  rewrite (set_resource_live _ l (set_resource_field (Some r1) i) r2 o2)
    by (simpl; by rewrite ?lookup_insert_eq, ?lookup_insert_ne).
  eexists. split; [reflexivity|]. split.
  - apply (get_resource_live _ _ (set_resource_field (Some r2) (set_resource_field (Some r1) i))).
    apply lookup_insert_eq.
  - unfold refs_at. simpl. rewrite lookup_insert_ne, !lookup_insert_eq by done.
    by rewrite H1, H2.
Qed.

(** C1, at a failing input. After two resources are attached in turn,
    [tracker_extract_info_get_resource] returns the second one, but the
    reference the context took on the first one is never given back: even
    once the context is destroyed the first resource counts one reference
    more than before, while the second is back to its own. *)
Theorem set_resource_replaced_not_released :
  (tracker_extract_info_set_resource (Some 1%positive) (Some 2%positive) ;;;
   tracker_extract_info_set_resource (Some 1%positive) (Some 3%positive) ;;;
   r <- tracker_extract_info_get_resource (Some 1%positive) ;;
   tracker_extract_info_unref (Some 1%positive) ;;;
   ret r) w1 = Some (Some 3%positive, w_leak) /\
  refs_at w1 (Some 2%positive) = 1%nat /\
  refs_at w_leak (Some 2%positive) = 2%nat /\
  refs_at w1 (Some 3%positive) = 1%nat /\
  refs_at w_leak (Some 3%positive) = 1%nat /\
  infos w_leak = ∅.
Proof. by vm_compute. Qed.

(** ** Construction and destruction undo each other *)

Lemma g_strdup_exact so O S I k :
  exists p, strdup_result p so S /\
            g_strdup so (mkWorld O S I k) = Some (p, mkWorld O (add_string p so S) I k).
Proof.
  destruct so as [s|]; simpl.
  - destruct (alloc_string_fresh s (mkWorld O S I k)) as (l & Hl & ->).
    exists (Some l). split; [|done]. split; [done|by exists s].
  - by exists NULL.
Qed.

Lemma drop_add_string p so (S : gmap loc string) :
  strdup_result p so S -> drop_string p (add_string p so S) = S.
Proof.
  destruct p as [l|]; simpl; [|by destruct so].
  intros [Hl [s ->]]. by apply delete_insert_id.
Qed.

(** The buffers of a new context, once freed in the order of
    [tracker_extract_info_unref], leave the buffer heap as it was. *)
Lemma drop_new_strings lc s m mt gr g (S : gmap loc string) :
  S !! lc = None ->
  strdup_result m mt (<[lc := s]> S) ->
  strdup_result gr g (add_string m mt (<[lc := s]> S)) ->
  drop_string gr (drop_string m (drop_string (Some lc)
    (add_string gr g (add_string m mt (<[lc := s]> S))))) = S.
Proof.
  intros Hc Hm Hg.
  destruct m as [lm|], gr as [lg|]; simpl in *.
  - destruct Hm as [Hm [tm ->]], Hg as [Hg [tg ->]]. simpl in *.
    apply lookup_insert_None in Hg as [Hg Hgm].
    apply lookup_insert_None in Hg as [Hg Hgc].
    apply lookup_insert_None in Hm as [Hm Hmc].
    apply map_eq. intros j.
    rewrite !lookup_delete, !lookup_insert.
    repeat case_decide; simplify_eq; done.
  - destruct Hm as [Hm [tm ->]]. subst g. simpl.
    apply lookup_insert_None in Hm as [Hm Hmc].
    apply map_eq. intros j.
    rewrite !lookup_delete, !lookup_insert.
    repeat case_decide; simplify_eq; done.
  - subst mt. destruct Hg as [Hg [tg ->]]. simpl in *.
    apply lookup_insert_None in Hg as [Hg Hgc].
    apply map_eq. intros j.
    rewrite !lookup_delete, !lookup_insert.
    repeat case_decide; simplify_eq; done.
  - subst mt g. simpl. by apply delete_insert_id.
Qed.

(** The object heap after a reference was taken and given back. *)
Lemma drop_ref_taken f o (O : gmap loc GObject) :
  O !! f = Some o -> (1 <= g_ref_count o)%nat ->
  drop_ref (Some f) (<[f := mkGObject (g_type o) (S (g_ref_count o))]> O) = O.
Proof.
  intros Ho Hn. unfold drop_ref. rewrite lookup_insert_eq. simpl.
  destruct (g_ref_count o) as [|n] eqn:E; [lia|].
  rewrite insert_insert_eq. apply insert_id. rewrite Ho. f_equal.
  destruct o as [t c]. simpl in *. by subst.
Qed.

(** The state a successful [tracker_extract_info_new] produces, exactly. *)
Lemma new_exact w f o s mt g mx :
  objects w !! f = Some o -> g_type o = G_TYPE_FILE -> s <> EmptyString ->
  exists l lc m gr,
    infos w !! l = None /\ strings w !! lc = None /\
    strdup_result m mt (<[lc := s]> (strings w)) /\
    strdup_result gr g (add_string m mt (<[lc := s]> (strings w))) /\
    tracker_extract_info_new (Some f) (Some s) mt g mx w =
      Some (Some l,
            mkWorld (<[f := mkGObject (g_type o) (S (g_ref_count o))]> (objects w))
                    (add_string gr g (add_string m mt (<[lc := s]> (strings w))))
                    (<[l := mkInfo NULL (Some f) (Some lc) m gr mx 1]> (infos w))
                    (criticals w)).
Proof.
  intros Ho Ht Hs. destruct w as [O S I k]. simpl in *.
  unfold tracker_extract_info_new, G_IS_FILE, g_type_check_instance_is_a.
  unfold bind at 1. simpl. rewrite Ho. rewrite bool_decide_eq_true_2 by done. simpl.
  destruct s as [|a s]; [done|].
  destruct (g_slice_new0_fresh (mkWorld O S I k)) as (l & Hl & El).
  rewrite (bind_Some _ _ _ _ _ El). simpl in Hl. unfold with_infos. simpl.
  unfold bind at 1. simpl. rewrite Ho. unfold with_objects. simpl.
  unfold bind at 1. rewrite store_inserted. simpl.
  set (O' := <[f:=_]> O).
  destruct (alloc_string_fresh (String a s) (mkWorld O' S (<[l:=set_file_field (Some f)
             (mkInfo NULL NULL NULL NULL NULL 0 0)]> I) k)) as (lc & Hc & E1).
  simpl in Hc.
  rewrite (bind_Some _ _ _ _ _ E1). unfold with_strings. simpl.
  unfold bind at 1. rewrite store_inserted.
  destruct (g_strdup_exact mt O' (<[lc:=String a s]> S)
             (<[l:=set_content_id_field (Some lc) (set_file_field (Some f)
                (mkInfo NULL NULL NULL NULL NULL 0 0))]> I) k) as (m & Hm & E2).
  rewrite (bind_Some _ _ _ _ _ E2). unfold bind at 1. rewrite store_inserted.
  destruct (g_strdup_exact g O' (add_string m mt (<[lc:=String a s]> S))
             (<[l:=set_mimetype_field m (set_content_id_field (Some lc)
                (set_file_field (Some f) (mkInfo NULL NULL NULL NULL NULL 0 0)))]> I) k)
    as (gr & Hg & E3).
  rewrite (bind_Some _ _ _ _ _ E3). unfold bind at 1. rewrite store_inserted.
  unfold bind at 1. rewrite store_inserted.
  unfold bind at 1. rewrite store_inserted.
  unfold bind at 1. rewrite store_inserted.
  exists l, lc, m, gr. split_and!; done.
Qed.

Lemma new_exact_valid O S I k f o l lc s m mt gr g mx :
  O !! f = Some o -> g_type o = G_TYPE_FILE -> s <> EmptyString ->
  S !! lc = None ->
  strdup_result m mt (<[lc := s]> S) ->
  strdup_result gr g (add_string m mt (<[lc := s]> S)) ->
  valid_info
    (mkWorld (<[f := mkGObject (g_type o) (Datatypes.S (g_ref_count o))]> O)
             (add_string gr g (add_string m mt (<[lc := s]> S)))
             (<[l := mkInfo NULL (Some f) (Some lc) m gr mx 1]> I) k)
    l (mkInfo NULL (Some f) (Some lc) m gr mx 1).
Proof.
  intros Ho Ht Hs Hc Hm Hg.
  assert (Hlc : add_string gr g (add_string m mt (<[lc := s]> S)) !! lc = Some s).
  { destruct gr as [lg|], g as [tg|], m as [lm|], mt as [tm|]; simpl in *;
      repeat match goal with
             | H : _ /\ _ |- _ => destruct H
             | H : <[_:=_]> _ !! _ = None |- _ => apply lookup_insert_None in H
             end;
      by rewrite ?lookup_insert_ne, ?lookup_insert_eq by done. }
  split; simpl.
  - apply lookup_insert_eq.
  - done.
  - unfold type_at. simpl. rewrite lookup_insert_eq. simpl. by rewrite Ht.
  - by exists s.
  - destruct m as [lm|]; [right|by left]. destruct Hm as [Hm [tm ->]].
    destruct gr as [lg|], g as [tg|]; simpl in *;
      repeat match goal with
             | H : _ /\ _ |- _ => destruct H
             | H : <[_:=_]> _ !! _ = None |- _ => apply lookup_insert_None in H
             end;
      by rewrite ?lookup_insert_ne, ?lookup_insert_eq by done.
  - destruct gr as [lg|]; [right|by left]. destruct Hg as [Hg [tg ->]].
    simpl. by rewrite lookup_insert_eq.
  - by left.
  - split_and!.
    + destruct m as [lm|]; [|done]. destruct Hm as [Hm _].
      apply lookup_insert_None in Hm as [_ Hm]. congruence.
    + destruct gr as [lg|]; [|done]. destruct Hg as [Hg _].
      destruct m as [lm|], mt as [tm|]; simpl in Hg;
        repeat match goal with
               | H : <[_:=_]> _ !! _ = None |- _ =>
                   apply lookup_insert_None in H as [? ?]
               end; congruence.
    + intros <-. destruct m as [lm|]; [|done]. destruct Hm as [_ [tm ->]].
      destruct Hg as [Hg _]. simpl in Hg. by rewrite lookup_insert_eq in Hg.
Qed.

(** X1. A context that is created and released at once leaves no trace:
    the file has its reference back, the three copies are freed and the
    slice is gone, so the heap is the one before the call. *)
Theorem new_unref_round_trip w f o s mt g mx :
  objects w !! f = Some o -> g_type o = G_TYPE_FILE -> (1 <= g_ref_count o)%nat ->
  s <> EmptyString ->
  (info <- tracker_extract_info_new (Some f) (Some s) mt g mx ;;
   tracker_extract_info_unref info) w = Some (tt, w).
Proof.
  intros Ho Ht Hn Hs.
  destruct (new_exact w f o s mt g mx Ho Ht Hs) as (l & lc & m & gr & Hl & Hc & Hm & Hg & E).
  rewrite (bind_Some _ _ _ _ _ E).
  rewrite (unref_destroys _ l _ (new_exact_valid _ _ _ _ _ _ _ _ _ _ _ _ _ mx
             Ho Ht Hs Hc Hm Hg) eq_refl).
  unfold destroyed.
  cbn [resource file content_id mimetype graph objects strings infos criticals].
  rewrite drop_new_strings, delete_insert_id by done.
  change (drop_ref NULL ?X) with X.
  rewrite (drop_ref_taken f o (objects w) Ho Hn).
  by destruct w.
Qed.

Lemma new_unref_round_trip_witness :
  (info <- tracker_extract_info_new (Some 1%positive) (Some "abc123")
             (Some "audio/mpeg") None 0 ;;
   tracker_extract_info_unref info) w0 = Some (tt, w0).
Proof.
  apply (new_unref_round_trip w0 1%positive (mkGObject G_TYPE_FILE 1)).
  - reflexivity.
  - reflexivity.
  - simpl. lia.
  - discriminate.
Defined.

(** X2. The same holds with one resource attached in between: the final
    release gives back the reference [tracker_extract_info_set_resource]
    took, so the heap is again the one before the construction. *)
Theorem new_set_resource_unref_round_trip w f o r q s mt g mx :
  objects w !! f = Some o -> g_type o = G_TYPE_FILE -> (1 <= g_ref_count o)%nat ->
  objects w !! r = Some q -> g_type q = TRACKER_TYPE_RESOURCE -> (1 <= g_ref_count q)%nat ->
  s <> EmptyString ->
  (info <- tracker_extract_info_new (Some f) (Some s) mt g mx ;;
   tracker_extract_info_set_resource info (Some r) ;;;
   tracker_extract_info_unref info) w = Some (tt, w).
Proof.
  intros Ho Ht Hn Hq Htq Hnq Hs.
  assert (Hne : f <> r) by (intros ->; congruence).
  destruct (new_exact w f o s mt g mx Ho Ht Hs) as (l & lc & m & gr & Hl & Hc & Hm & Hg & E).
  rewrite (bind_Some _ _ _ _ _ E).
  pose proof (new_exact_valid _ _ (infos w) (criticals w) _ _ l _ _ _ _ _ _ mx
                Ho Ht Hs Hc Hm Hg) as Hv.
  set (wn := mkWorld _ _ _ _) in *.
  assert (Hq' : objects wn !! r = Some q) by (unfold wn; simpl; by rewrite lookup_insert_ne).
  rewrite (bind_Some _ _ _ _ _ (set_resource_live _ _ _ _ _ (valid_live _ _ _ Hv) Hq')).
  rewrite (unref_destroys _ l _ (valid_set_resource _ _ _ _ _ Hv Hq' Htq) eq_refl).
  unfold destroyed, wn.
  cbn [resource file content_id mimetype graph objects strings infos criticals
       set_resource_field].
  rewrite drop_new_strings by done.
  rewrite delete_insert_eq, delete_insert_id by done.
  rewrite (insert_insert_ne _ r f) by done.
  rewrite (drop_ref_taken f o (<[r := _]> (objects w)))
    by (by rewrite ?lookup_insert_ne).
  rewrite (drop_ref_taken r q (objects w) Hq Hnq).
  by destruct w.
Qed.

Lemma new_set_resource_unref_round_trip_witness :
  (info <- tracker_extract_info_new (Some 1%positive) (Some "abc123")
             (Some "audio/mpeg") None 0 ;;
   tracker_extract_info_set_resource info (Some 2%positive) ;;;
   tracker_extract_info_unref info) w0 = Some (tt, w0).
Proof.
  apply (new_set_resource_unref_round_trip w0 1%positive (mkGObject G_TYPE_FILE 1)
           2%positive (mkGObject TRACKER_TYPE_RESOURCE 1)).
  - reflexivity.
  - reflexivity.
  - simpl. lia.
  - reflexivity.
  - reflexivity.
  - simpl. lia.
  - discriminate.
Defined.

(** ** What the getters see after construction *)

(** X3. On a new context the getters give back the arguments of
    [tracker_extract_info_new]: the file pointer itself, buffers holding
    the mimetype and the graph (NULL where NULL was passed) and the text
    limit; none of these reads changes the heap. *)
Theorem new_then_getters w f o s mt g mx :
  objects w !! f = Some o -> g_type o = G_TYPE_FILE -> s <> EmptyString ->
  exists l w',
    tracker_extract_info_new (Some f) (Some s) mt g mx w = Some (Some l, w') /\
    tracker_extract_info_get_file (Some l) w' = Some (Some f, w') /\
    (exists p, tracker_extract_info_get_mimetype (Some l) w' = Some (p, w') /\
               string_at w' p = mt /\ (mt = None -> p = NULL)) /\
    (exists p, tracker_extract_info_get_graph (Some l) w' = Some (p, w') /\
               string_at w' p = g /\ (g = None -> p = NULL)) /\
    tracker_extract_info_get_max_text (Some l) w' = Some (mx, w').
Proof.
  intros Ho Ht Hs.
  destruct (new_success w f o s mt g mx Ho Ht Hs)
    as (l & c & m & gr & w' & E & Hl & Hi & HO & Hk & Hsub & Hc & Hm & Hg
        & D1 & D2 & D3 & Nm & Ng).
  assert (Hl' : infos w' !! l = Some (mkInfo NULL (Some f) c m gr mx 1))
    by (rewrite Hi; apply lookup_insert_eq).
  exists l, w'. split; [exact E|]. split_and!.
  - by rewrite (get_file_live _ _ _ Hl').
  - exists m. by rewrite (get_mimetype_live _ _ _ Hl').
  - exists gr. by rewrite (get_graph_live _ _ _ Hl').
  - by rewrite (get_max_text_live _ _ _ Hl').
Qed.

Lemma new_then_getters_witness :
  exists l w',
    tracker_extract_info_new (Some 1%positive) (Some "abc123") (Some "audio/mpeg") None 42 w0
      = Some (Some l, w') /\
    tracker_extract_info_get_file (Some l) w' = Some (Some 1%positive, w') /\
    (exists p, tracker_extract_info_get_mimetype (Some l) w' = Some (p, w') /\
               string_at w' p = Some "audio/mpeg" /\
               (Some "audio/mpeg" = None -> p = NULL)) /\
    (exists p, tracker_extract_info_get_graph (Some l) w' = Some (p, w') /\
               string_at w' p = None /\ (@None string = None -> p = NULL)) /\
    tracker_extract_info_get_max_text (Some l) w' = Some (42, w').
Proof.
  apply (new_then_getters w0 1%positive (mkGObject G_TYPE_FILE 1) "abc123").
  - reflexivity.
  - reflexivity.
  - discriminate.
Defined.

(** X4. A successful construction takes one reference on the file and
    touches nothing else that existed: every other object, every buffer
    and every other context is as before, and nothing is logged. *)
Theorem new_frame w f o s mt g mx :
  objects w !! f = Some o -> g_type o = G_TYPE_FILE -> s <> EmptyString ->
  exists l w',
    tracker_extract_info_new (Some f) (Some s) mt g mx w = Some (Some l, w') /\
    infos w !! l = None /\
    refs_at w' (Some f) = S (refs_at w (Some f)) /\
    (forall q, q <> f -> objects w' !! q = objects w !! q) /\
    (forall p, is_Some (string_at w p) -> string_at w' p = string_at w p) /\
    (forall l', l' <> l -> infos w' !! l' = infos w !! l') /\
    criticals w' = criticals w.
Proof.
  intros Ho Ht Hs.
  destruct (new_success w f o s mt g mx Ho Ht Hs)
    as (l & c & m & gr & w' & E & Hl & Hi & HO & Hk & Hsub & _).
  exists l, w'. split; [exact E|]. split_and!; try done.
  - unfold refs_at. simpl. by rewrite HO, lookup_insert_eq, Ho.
  - intros q Hq. by rewrite HO, lookup_insert_ne.
  - intros [lp|] [t Ht']; [|done]. simpl in *. rewrite Ht'.
    by eapply lookup_weaken.
  - intros l' Hne. by rewrite Hi, lookup_insert_ne.
Qed.

Lemma new_frame_witness :
  exists l w',
    tracker_extract_info_new (Some 1%positive) (Some "abc123") None None 0 w1
      = Some (Some l, w') /\
    infos w1 !! l = None /\
    refs_at w' (Some 1%positive) = S (refs_at w1 (Some 1%positive)) /\
    (forall q, q <> 1%positive -> objects w' !! q = objects w1 !! q) /\
    (forall p, is_Some (string_at w1 p) -> string_at w' p = string_at w1 p) /\
    (forall l', l' <> l -> infos w' !! l' = infos w1 !! l') /\
    criticals w' = criticals w1.
Proof.
  apply (new_frame w1 1%positive (mkGObject G_TYPE_FILE 2) "abc123").
  - reflexivity.
  - reflexivity.
  - discriminate.
Defined.

(** ** Derived identifiers *)

(** X5. The buffer [tracker_extract_info_get_content_id] returns is the
    caller's: it is the only thing the call adds, and freeing it gives back
    the heap as it was before the call. *)
Theorem get_content_id_then_free w l i suffix :
  valid_info w l i ->
  (p <- tracker_extract_info_get_content_id (Some l) suffix ;; g_free p) w = Some (tt, w).
Proof.
  intros Hv. destruct (valid_content_id _ _ _ Hv) as (c & Hc & _).
  destruct (get_content_id_live w l i c suffix (valid_live _ _ _ Hv) Hc) as (p & Hp & E).
  rewrite (bind_Some _ _ _ _ _ E). destruct w as [O S I k]. simpl in *.
  rewrite lookup_insert_eq. unfold with_strings. simpl.
  by rewrite delete_insert_id.
Qed.

Lemma get_content_id_then_free_witness :
  (p <- tracker_extract_info_get_content_id (Some 1%positive) (Some "3") ;; g_free p) w1
    = Some (tt, w1).
Proof. exact (get_content_id_then_free w1 1%positive i1 (Some "3") valid_w1). Defined.

Lemma string_append_assoc (a b c : string) : (a ++ b) ++ c = a ++ (b ++ c).
Proof.
  induction a as [|x a IH]; [reflexivity|].
  change (String x ((a ++ b) ++ c) = String x (a ++ (b ++ c))). by rewrite IH.
Qed.

(** X6. For one context, different suffixes give different identifiers and
    equal suffixes equal ones, and no suffix gives back the base
    identifier. *)
Theorem get_content_id_suffix_injective w l i s1 s2 :
  valid_info w l i ->
  exists p1 wa t1 p2 wb t2 q wc b,
    tracker_extract_info_get_content_id (Some l) (Some s1) w = Some (p1, wa) /\
    string_at wa p1 = Some t1 /\
    tracker_extract_info_get_content_id (Some l) (Some s2) w = Some (p2, wb) /\
    string_at wb p2 = Some t2 /\
    tracker_extract_info_get_content_id (Some l) None w = Some (q, wc) /\
    string_at wc q = Some b /\
    (t1 = t2 <-> s1 = s2) /\ t1 <> b.
Proof.
  intros Hv. pose proof (valid_live _ _ _ Hv) as Hl.
  destruct (valid_content_id _ _ _ Hv) as (c & Hc & _).
  destruct (get_content_id_live w l i c (Some s1) Hl Hc) as (p1 & _ & E1).
  destruct (get_content_id_live w l i c (Some s2) Hl Hc) as (p2 & _ & E2).
  destruct (get_content_id_live w l i c None Hl Hc) as (q & _ & E3).
  eexists _, _, _, _, _, _, _, _, _.
  split; [exact E1|]. split; [apply string_at_alloc_new|].
  split; [exact E2|]. split; [apply string_at_alloc_new|].
  split; [exact E3|]. split; [apply string_at_alloc_new|].
  split; [split|].
  - intros H. apply (inj (String.append c)) in H. by apply (inj (String.append "/")) in H.
  - by intros ->.
  - exact (append_cons_neq c s1 _).
Qed.

Lemma get_content_id_suffix_injective_witness :
  exists p1 wa t1 p2 wb t2 q wc b,
    tracker_extract_info_get_content_id (Some 1%positive) (Some "0") w1 = Some (p1, wa) /\
    string_at wa p1 = Some t1 /\
    tracker_extract_info_get_content_id (Some 1%positive) (Some "1") w1 = Some (p2, wb) /\
    string_at wb p2 = Some t2 /\
    tracker_extract_info_get_content_id (Some 1%positive) None w1 = Some (q, wc) /\
    string_at wc q = Some b /\
    (t1 = t2 <-> "0" = "1") /\ t1 <> b.
Proof. exact (get_content_id_suffix_injective w1 1%positive i1 "0" "1" valid_w1). Defined.

(** X7. The suffix is not escaped, so derivation nests: from a context
    whose content id is the derived id [b/s1], the suffix [s2] gives the
    identifier that the suffix [s1/s2] gives from a context with content
    id [b]. *)
Theorem get_content_id_nested w l i w' l' i' b s1 s2 :
  valid_info w l i -> string_at w (content_id i) = Some b ->
  valid_info w' l' i' -> string_at w' (content_id i') = Some (b ++ "/" ++ s1) ->
  exists p wa q wb t,
    tracker_extract_info_get_content_id (Some l) (Some (s1 ++ "/" ++ s2)) w = Some (p, wa) /\
    tracker_extract_info_get_content_id (Some l') (Some s2) w' = Some (q, wb) /\
    string_at wa p = Some t /\ string_at wb q = Some t.
Proof.
  intros Hv Hc Hv' Hc'.
  destruct (get_content_id_live w l i b (Some (s1 ++ "/" ++ s2)) (valid_live _ _ _ Hv) Hc)
    as (p & _ & E).
  destruct (get_content_id_live w' l' i' _ (Some s2) (valid_live _ _ _ Hv') Hc')
    as (q & _ & E').
  eexists _, _, _, _, _. split; [exact E|]. split; [exact E'|].
  split; [apply string_at_alloc_new|].
  rewrite string_at_alloc_new. f_equal.
  by rewrite !string_append_assoc.
Qed.

Lemma get_content_id_nested_witness :
  exists p wa q wb t,
    tracker_extract_info_get_content_id (Some 1%positive) (Some ("3" ++ "/" ++ "7")) w1
      = Some (p, wa) /\
    tracker_extract_info_get_content_id (Some 1%positive) (Some "7") w2 = Some (q, wb) /\
    string_at wa p = Some t /\ string_at wb q = Some t.
Proof.
  exact (get_content_id_nested w1 1%positive i1 w2 1%positive i2 "abc123" "3" "7"
           valid_w1 eq_refl valid_w2 eq_refl).
Defined.

(** ** NULL arguments *)

(** X8. Six functions guard against a NULL context: they log one critical,
    return NULL (or nothing) and leave the heap alone. The three others,
    [tracker_extract_info_get_resource], [tracker_extract_info_set_resource]
    and [tracker_extract_info_get_max_text], have no guard and dereference
    the NULL pointer. *)
Theorem null_info w suffix r :
  tracker_extract_info_ref NULL w = Some (NULL, logged w) /\
  tracker_extract_info_unref NULL w = Some (tt, logged w) /\
  tracker_extract_info_get_file NULL w = Some (NULL, logged w) /\
  tracker_extract_info_get_content_id NULL suffix w = Some (NULL, logged w) /\
  tracker_extract_info_get_mimetype NULL w = Some (NULL, logged w) /\
  tracker_extract_info_get_graph NULL w = Some (NULL, logged w) /\
  tracker_extract_info_get_resource NULL w = None /\
  tracker_extract_info_set_resource NULL r w = None /\
  tracker_extract_info_get_max_text NULL w = None.
Proof.
  split_and!; try reflexivity.
  unfold tracker_extract_info_set_resource, bind.
  by destruct (g_object_ref r w) as [[? ?]|].
Qed.

(** X9. Passing a NULL resource does not detach anything cleanly:
    [g_object_ref] logs a critical, the resource field becomes NULL, and no
    object loses a reference, the resource attached before included. *)
Theorem set_resource_null w l i :
  infos w !! l = Some i ->
  exists w',
    tracker_extract_info_set_resource (Some l) NULL w = Some (tt, w') /\
    criticals w' = S (criticals w) /\
    objects w' = objects w /\
    refs_at w' (resource i) = refs_at w (resource i) /\
    tracker_extract_info_get_resource (Some l) w' = Some (NULL, w').
Proof.
  intros Hl.
  exists (with_infos (insert l (set_resource_field NULL i)) (logged w)).
  split.
  - unfold tracker_extract_info_set_resource, g_object_ref, g_critical, bind, store.
    simpl. by rewrite Hl.
  - split_and!; try done.
    apply (get_resource_live _ _ (set_resource_field NULL i)). apply lookup_insert_eq.
Qed.

Lemma set_resource_null_witness :
  exists w',
    tracker_extract_info_set_resource (Some 1%positive) NULL w1 = Some (tt, w') /\
    criticals w' = S (criticals w1) /\
    objects w' = objects w1 /\
    refs_at w' (resource i1) = refs_at w1 (resource i1) /\
    tracker_extract_info_get_resource (Some 1%positive) w' = Some (NULL, w').
Proof. exact (set_resource_null w1 1%positive i1 eq_refl). Defined.

(** X10. [tracker_extract_info_set_resource] only ever takes a reference:
    the new resource counts one more, and every other object, the resource
    attached before included, counts what it did. *)
Theorem set_resource_takes_one w l i r o :
  infos w !! l = Some i -> objects w !! r = Some o ->
  exists w',
    tracker_extract_info_set_resource (Some l) (Some r) w = Some (tt, w') /\
    refs_at w' (Some r) = S (refs_at w (Some r)) /\
    (forall q, q <> Some r -> refs_at w' q = refs_at w q) /\
    (resource i <> Some r -> refs_at w' (resource i) = refs_at w (resource i)) /\
    criticals w' = criticals w.
Proof.
  intros Hl Ho. eexists. split; [by apply set_resource_live|].
  assert (Hother : forall q, q <> Some r ->
            refs_at (mkWorld (<[r := mkGObject (g_type o) (S (g_ref_count o))]> (objects w))
                       (strings w) (<[l := set_resource_field (Some r) i]> (infos w))
                       (criticals w)) q = refs_at w q).
  { intros [lq|] Hq; [|done]. unfold refs_at. simpl.
    rewrite lookup_insert_ne; [done|congruence]. }
  split_and!; try done.
  - unfold refs_at. simpl. by rewrite lookup_insert_eq, Ho.
  - apply Hother.
Qed.

Lemma set_resource_takes_one_witness :
  exists w',
    tracker_extract_info_set_resource (Some 1%positive) (Some 2%positive) w1 = Some (tt, w') /\
    refs_at w' (Some 2%positive) = S (refs_at w1 (Some 2%positive)) /\
    (forall q, q <> Some 2%positive -> refs_at w' q = refs_at w1 q) /\
    (resource i1 <> Some 2%positive -> refs_at w' (resource i1) = refs_at w1 (resource i1)) /\
    criticals w' = criticals w1.
Proof.
  exact (set_resource_takes_one w1 1%positive i1 2%positive
           (mkGObject TRACKER_TYPE_RESOURCE 1) eq_refl eq_refl).
Defined.

(** ** The life of a context *)

(** X11. Validity is an invariant. On a valid context every operation
    that stays within the range of the count and hands over only live
    resources returns without a critical. The release of the last reference
    destroys the context; every other operation, the release of any but the
    last reference included, leaves a valid context behind. *)
Theorem run_preserves_valid w l i o :
  valid_info w l i -> op_ok w i o ->
  exists w',
    run (Some l) o w = Some (tt, w') /\ criticals w' = criticals w /\
    (o = Release -> ref_count i = 1 ->
     w' = destroyed l i w /\ infos w' !! l = None) /\
    (o <> Release \/ ref_count i <> 1 -> exists i', valid_info w' l i').
Proof.
  intros Hv Hok. pose proof (valid_live _ _ _ Hv) as Hl.
  pose proof (valid_ref_count _ _ _ Hv) as Hc.
  assert (Hread : forall (o' : operation) w',
            o' <> Release -> run (Some l) o' w = Some (tt, w') ->
            (exists i', valid_info w' l i') ->
            criticals w' = criticals w ->
            exists w'',
              run (Some l) o' w = Some (tt, w'') /\ criticals w'' = criticals w /\
              (o' = Release -> ref_count i = 1 ->
               w'' = destroyed l i w /\ infos w'' !! l = None) /\
              (o' <> Release \/ ref_count i <> 1 -> exists i', valid_info w'' l i')).
  { intros o' w' Hne Hrun Hv' Hk. exists w'. by split_and!. }
  destruct o as [| |r|suffix| | | | |]; simpl in Hok.
  - apply (Hread _ (with_count l i (ref_count i + 1) w)); [done| |..|done].
    + unfold run. rewrite (bind_Some _ _ _ _ _ (ref_live _ _ _ Hl)).
      by rewrite wrap_gint_small by (unfold G_MININT, G_MAXINT in *; lia).
    + eexists. apply (valid_with_count w l i (ref_count i + 1) Hv). lia.
  - unfold run. destruct (decide (ref_count i = 1)) as [H1|H1].
    + rewrite (unref_destroys _ _ _ Hv H1). eexists. split; [reflexivity|].
      split; [done|]. split.
      * intros _ _. split; [done|]. apply lookup_delete_eq.
      * by intros [?|?].
    + assert (Hw : wrap_gint (ref_count i - 1) = ref_count i - 1).
      { apply wrap_gint_small. unfold G_MININT, G_MAXINT in *. lia. }
      rewrite (unref_keeps _ _ _ Hl) by lia. rewrite Hw.
      eexists. split; [reflexivity|]. split; [done|]. split; [done|].
      intros _. eexists.
      apply (valid_with_count w l i (ref_count i - 1) Hv). lia.
  - unfold type_at in Hok. destruct r as [lr|]; [|done]. simpl in Hok.
    destruct (objects w !! lr) as [q|] eqn:Hq; [|done].
    assert (g_type q = TRACKER_TYPE_RESOURCE) as Ht by (simpl in Hok; congruence).
    eapply Hread; [done|by apply set_resource_live| |done].
    eexists. by apply valid_set_resource.
  - destruct (valid_content_id _ _ _ Hv) as (c & Hci & _).
    destruct (get_content_id_live w l i c suffix Hl Hci) as (p & Hp & E).
    eapply Hread; [done| | |].
    + unfold run. by rewrite (bind_Some _ _ _ _ _ E).
    + exists i. by apply valid_alloc.
    + done.
  - apply (Hread _ w); [done| |by exists i|done].
    unfold run. by rewrite (bind_Some _ _ _ _ _ (get_file_live _ _ _ Hl)).
  - apply (Hread _ w); [done| |by exists i|done].
    unfold run. by rewrite (bind_Some _ _ _ _ _ (get_mimetype_live _ _ _ Hl)).
  - apply (Hread _ w); [done| |by exists i|done].
    unfold run. by rewrite (bind_Some _ _ _ _ _ (get_graph_live _ _ _ Hl)).
  - apply (Hread _ w); [done| |by exists i|done].
    unfold run. by rewrite (bind_Some _ _ _ _ _ (get_resource_live _ _ _ Hl)).
  - apply (Hread _ w); [done| |by exists i|done].
    unfold run. by rewrite (bind_Some _ _ _ _ _ (get_max_text_live _ _ _ Hl)).
Qed.

Lemma run_preserves_valid_witness :
  (exists w' i',
     run (Some 1%positive) (SetResource (Some 2%positive)) w1 = Some (tt, w') /\
     criticals w' = criticals w1 /\ valid_info w' 1%positive i') /\
  (exists w',
     run (Some 1%positive) Release w1 = Some (tt, w') /\
     criticals w' = criticals w1 /\
     w' = destroyed 1%positive i1 w1 /\ infos w' !! 1%positive = None).
Proof.
  split.
  - destruct (run_preserves_valid w1 1%positive i1 (SetResource (Some 2%positive))
                valid_w1 eq_refl) as (w' & Hrun & Hk & _ & Hval).
    assert (Hne : SetResource (Some 2%positive) <> Release \/ ref_count i1 <> 1)
      by (left; discriminate).
    destruct (Hval Hne) as [i' Hi'].
    exists w', i'. split; [exact Hrun|]. split; [exact Hk|exact Hi'].
  - destruct (run_preserves_valid w1 1%positive i1 Release valid_w1 I)
      as (w' & Hrun & Hk & Hdes & _).
    destruct (Hdes eq_refl eq_refl) as [Hw Hgone].
    exists w'. split; [exact Hrun|]. split; [exact Hk|]. split; [exact Hw|exact Hgone].
Defined.

(** X12. Nothing survives the last release: once the count has dropped to
    zero every further call on the pointer, a second release included,
    runs into the freed slice. *)
Theorem use_after_last_release w l i o :
  valid_info w l i -> ref_count i = 1 ->
  (tracker_extract_info_unref (Some l) ;;; run (Some l) o) w = None.
Proof.
  intros Hv H1. rewrite (bind_Some _ _ _ _ _ (unref_destroys _ _ _ Hv H1)).
  apply run_gone. apply lookup_delete_eq.
Qed.

Lemma use_after_last_release_witness :
  (tracker_extract_info_unref (Some 1%positive) ;;; run (Some 1%positive) Release) w1
    = None.
Proof. exact (use_after_last_release w1 1%positive i1 Release valid_w1 eq_refl). Defined.

(** X13. The count is kept modulo 2^32: [n] acquires on a live context
    with count [c] leave the count [c + n] wrapped into the range of
    [gint], starting with [G_MININT] right after [G_MAXINT], and change no
    other field, object, buffer or context. *)
Theorem acquire_n_wraps w l i (n : N) :
  infos w !! l = Some i -> G_MININT <= ref_count i <= G_MAXINT ->
  exists w',
    repeat_N n (tracker_extract_info_ref (Some l)) w = Some (tt, w') /\
    infos w' !! l = Some (set_ref_count_field (wrap_gint (ref_count i + Z.of_N n)) i) /\
    (forall l', l' <> l -> infos w' !! l' = infos w !! l') /\
    objects w' = objects w /\ strings w' = strings w /\ criticals w' = criticals w /\
    wrap_gint (G_MAXINT + 1) = G_MININT.
Proof.
  intros Hl Hc. eexists. split; [by apply acquire_n|].
  split_and!; try done.
  - apply with_count_lookup.
  - intros l' Hne. unfold with_count, with_infos. simpl. by rewrite lookup_insert_ne.
Qed.

Lemma acquire_n_wraps_witness :
  exists w',
    repeat_N 5 (tracker_extract_info_ref (Some 1%positive)) w1 = Some (tt, w') /\
    infos w' !! 1%positive
      = Some (set_ref_count_field (wrap_gint (ref_count i1 + Z.of_N 5)) i1) /\
    (forall l', l' <> 1%positive -> infos w' !! l' = infos w1 !! l') /\
    objects w' = objects w1 /\ strings w' = strings w1 /\ criticals w' = criticals w1 /\
    wrap_gint (G_MAXINT + 1) = G_MININT.
Proof.
  apply (acquire_n_wraps w1 1%positive i1 5).
  - reflexivity.
  - split; vm_compute; discriminate.
Defined.

Lemma drop_ref_lookup_other p q (O : gmap loc GObject) :
  p <> Some q -> drop_ref p O !! q = O !! q.
Proof.
  destruct p as [l|]; [|done]. intros Hne.
  apply drop_ref_lookup_ne. congruence.
Qed.

Lemma drop_string_lookup_other p q (S : gmap loc string) :
  p <> Some q -> drop_string p S !! q = S !! q.
Proof.
  destruct p as [l|]; [|done]. intros Hne. simpl.
  rewrite lookup_delete_ne; [done|congruence].
Qed.

(** X14. The last release frees what the context owns and nothing else:
    but for the file and the attached resource every object, but for the
    three copies every buffer, and every other context is as before, and
    nothing is logged. *)
Theorem last_release_frame w l i :
  valid_info w l i -> ref_count i = 1 ->
  exists w',
    tracker_extract_info_unref (Some l) w = Some (tt, w') /\
    infos w' !! l = None /\
    (forall l', l' <> l -> infos w' !! l' = infos w !! l') /\
    (forall q, file i <> Some q -> resource i <> Some q ->
       objects w' !! q = objects w !! q) /\
    (forall p, content_id i <> Some p -> mimetype i <> Some p -> graph i <> Some p ->
       strings w' !! p = strings w !! p) /\
    criticals w' = criticals w.
Proof.
  intros Hv H1. exists (destroyed l i w).
  split; [by apply unref_destroys|]. unfold destroyed. simpl.
  split_and!; try done.
  - apply lookup_delete_eq.
  - intros l' Hne. by rewrite lookup_delete_ne.
  - intros q Hf Hr. by rewrite !drop_ref_lookup_other.
  - intros p Hc Hm Hg. by rewrite !drop_string_lookup_other.
Qed.

Lemma last_release_frame_witness :
  exists w',
    tracker_extract_info_unref (Some 1%positive) w1 = Some (tt, w') /\
    infos w' !! 1%positive = None /\
    (forall l', l' <> 1%positive -> infos w' !! l' = infos w1 !! l') /\
    (forall q, file i1 <> Some q -> resource i1 <> Some q ->
       objects w' !! q = objects w1 !! q) /\
    (forall p, content_id i1 <> Some p -> mimetype i1 <> Some p -> graph i1 <> Some p ->
       strings w' !! p = strings w1 !! p) /\
    criticals w' = criticals w1.
Proof. exact (last_release_frame w1 1%positive i1 valid_w1 eq_refl). Defined.
